(** * controlbox: connection maintenance, connection manager and TCP discovery

    A shallow embedding of [controlbox/connector_discovery_facade.py] and
    [controlbox/conduit/server_discovery.py].

    Python objects live in a store indexed by references; methods are
    state transformers that either return a value or raise.  Every call
    on an external collaborator (connector, logger, worker thread) is
    recorded in a trace, so "calls connect()" is a statement about the
    trace.  Times and delays are integers (the source uses float
    seconds; only their order and differences matter here). *)

From Stdlib Require Import ZArith List String Bool Arith Lia.
Import ListNotations.

Set Implicit Arguments.

(** ** References, exceptions, results *)

Definition ref := nat.

(** The exceptions the modelled code can meet.  All of them derive from
    Python's [Exception]; [ConnectorError] is the declared connection
    error of [controlbox.connector.base]. *)
Inductive exn : Type :=
| ConnectorError (code : nat)
| AttributeError (attr : string)
| OtherError (code : nat).

Inductive Res (A : Type) : Type :=
| Ok (a : A)
| Raise (e : exn).

Arguments Ok {A} a.
Arguments Raise {A} e.

Definition is_ConnectorError (e : exn) : bool :=
  match e with
  | ConnectorError _ => true
  | _ => false
  end.

(** ** Insertion-ordered dictionaries with string keys

    A Python [dict] keeps its keys in insertion order; assigning to an
    existing key keeps the key's position.  A key is bound once; [del]
    removes every binding of the key, which is that one. *)
Module PyDict.
Section Dict.
Variable V : Type.

Definition dict := list (string * V).

Fixpoint get (k : string) (d : dict) : option V :=
  match d with
  | [] => None
  | (k', v) :: rest => if String.eqb k k' then Some v else get k rest
  end.

Definition contains (k : string) (d : dict) : bool :=
  match get k d with
  | Some _ => true
  | None => false
  end.

Fixpoint set (k : string) (v : V) (d : dict) : dict :=
  match d with
  | [] => [(k, v)]
  | (k', v') :: rest =>
      if String.eqb k k' then (k, v) :: rest else (k', v') :: set k v rest
  end.

Fixpoint del (k : string) (d : dict) : dict :=
  match d with
  | [] => []
  | (k', v') :: rest =>
      if String.eqb k k' then del k rest else (k', v') :: del k rest
  end.

Definition copy (d : dict) : dict := d.

Definition values (d : dict) : list V := map snd d.

End Dict.
End PyDict.

(** ** External collaborators *)

(** What a connector notifies its listeners of. *)
Inductive EventKind : Type := Connected | Disconnected.

Inductive ConnectorEvent : Type :=
| ConnectorConnectedEvent (source : ref)
| ConnectorDisconnectedEvent (source : ref).

Definition event_of (k : EventKind) (source : ref) : ConnectorEvent :=
  match k with
  | Connected => ConnectorConnectedEvent source
  | Disconnected => ConnectorDisconnectedEvent source
  end.

(** The result of one call on a connector: the exception it raised, if
    any, the connector afterwards, and the events it fired meanwhile. *)
Record Outcome (C : Type) : Type := {
  raised : option exn;
  after : C;
  fired : list EventKind
}.

(** [controlbox.connector.base.Connector] is an interface: the code uses
    the properties [connected] and [available] and the methods
    [connect()] and [disconnect()]. *)
Class Connector (C : Type) : Type := {
  connected : C -> bool;
  available : C -> bool;
  connect : C -> Outcome C;
  disconnect : C -> Outcome C
}.

(** [controlbox.support.retry_strategy.RetryStrategy]: a callable that,
    given the current time, returns the delay until the next try. *)
Class RetryStrategy (R : Type) : Type := {
  evaluate : R -> Z -> Z * R
}.

(** Modelled from the spec: [PeriodRetryStrategy] of
    [controlbox/support/retry_strategy.py], which is not among the
    sources.  The first call returns a delay [<= 0]; a permitted call
    resets the last-attempt time to [now]; later calls return
    [period - (now - last_attempt)]. *)
Record PeriodRetryStrategy : Type := {
  period : Z;
  last_attempt : option Z
}.

Definition PeriodRetryStrategy_call (s : PeriodRetryStrategy) (now : Z)
  : Z * PeriodRetryStrategy :=
  let delay :=
    match last_attempt s with
    | None => 0%Z
    | Some t => (period s - (now - t))%Z
    end in
  if (delay <=? 0)%Z
  then (delay, {| period := period s; last_attempt := Some now |})
  else (delay, s).

#[global] Instance PeriodRetryStrategy_RetryStrategy
  : RetryStrategy PeriodRetryStrategy :=
  {| evaluate := PeriodRetryStrategy_call |}.

Record Logger : Type := {
  isEnabledFor_DEBUG : bool
}.

Inductive LogRecord : Type :=
| info_device_connected (resource : string)
| exception_logged (e : exn)
| debug_unable_to_connect (resource : string) (e : exn)
| info_device_disconnected (resource : string)
| exception_unexpected (e : exn) (managed_connection : ref)
| warn_no_info_for_service (svc_name svc_type : string).

(** Calls that leave the modelled code. *)
Inductive Effect : Type :=
| Call_connect (connector : ref)
| Call_disconnect (connector : ref)
| Call_connected_loop (loop : ref)
| Call_wait (loop : ref) (timeout : Z)
| Call_log (r : LogRecord)
| Call_start (loop : ref)
| Call_stop (loop : ref).

(** ** The object store *)

Section Store.
Variables C R : Type.

(** The attributes of a [MaintainedConnection]; [mc_loop] is the
    attribute [loop] the manager sets after construction. *)
Record MaintainedConnection_state : Type := {
  mc_resource : string;
  mc_connector : ref;
  mc_retry_strategy : R;
  mc_logger : Logger;
  mc_loop : option ref
}.

(** The attributes of a [MaintainedConnectionLoop].  [ml_stop_event] is
    the [stop_event] flag of [AsyncLoop]; [ml_worker_active] tells
    whether its background worker is running. *)
Record MaintainedConnectionLoop_state : Type := {
  ml_maintained_connection : ref;
  ml_loop : option (C -> Outcome C);
  ml_stop_event : bool;
  ml_worker_active : bool
}.

(** The store, with the attributes of the one [ConnectionManager]
    ([_connections], [retry_period], [events]). *)
Record State : Type := {
  connectors : ref -> C;
  listeners : ref -> list ref;
  maintained_connections : ref -> MaintainedConnection_state;
  loops : ref -> MaintainedConnectionLoop_state;
  next_ref : ref;
  _connections : PyDict.dict ref;
  retry_period : Z;
  module_logger : Logger;
  events : list ConnectorEvent;
  trace : list Effect
}.

Definition upd (A : Type) (h : ref -> A) (r : ref) (v : A) : ref -> A :=
  fun x => if Nat.eqb x r then v else h x.

Definition set_connector (c : ref) (v : C) (st : State) : State :=
  {| connectors := upd (connectors st) c v;
     listeners := listeners st;
     maintained_connections := maintained_connections st;
     loops := loops st;
     next_ref := next_ref st;
     _connections := _connections st;
     retry_period := retry_period st;
     module_logger := module_logger st;
     events := events st;
     trace := trace st |}.

Definition add_listener (c : ref) (mc : ref) (st : State) : State :=
  {| connectors := connectors st;
     listeners := upd (listeners st) c (listeners st c ++ [mc]);
     maintained_connections := maintained_connections st;
     loops := loops st;
     next_ref := next_ref st;
     _connections := _connections st;
     retry_period := retry_period st;
     module_logger := module_logger st;
     events := events st;
     trace := trace st |}.

Definition set_maintained_connection (r : ref)
    (v : MaintainedConnection_state) (st : State) : State :=
  {| connectors := connectors st;
     listeners := listeners st;
     maintained_connections := upd (maintained_connections st) r v;
     loops := loops st;
     next_ref := next_ref st;
     _connections := _connections st;
     retry_period := retry_period st;
     module_logger := module_logger st;
     events := events st;
     trace := trace st |}.

Definition set_loop (r : ref) (v : MaintainedConnectionLoop_state)
    (st : State) : State :=
  {| connectors := connectors st;
     listeners := listeners st;
     maintained_connections := maintained_connections st;
     loops := upd (loops st) r v;
     next_ref := next_ref st;
     _connections := _connections st;
     retry_period := retry_period st;
     module_logger := module_logger st;
     events := events st;
     trace := trace st |}.

Definition set_next_ref (n : ref) (st : State) : State :=
  {| connectors := connectors st;
     listeners := listeners st;
     maintained_connections := maintained_connections st;
     loops := loops st;
     next_ref := n;
     _connections := _connections st;
     retry_period := retry_period st;
     module_logger := module_logger st;
     events := events st;
     trace := trace st |}.

Definition set_connections (d : PyDict.dict ref) (st : State) : State :=
  {| connectors := connectors st;
     listeners := listeners st;
     maintained_connections := maintained_connections st;
     loops := loops st;
     next_ref := next_ref st;
     _connections := d;
     retry_period := retry_period st;
     module_logger := module_logger st;
     events := events st;
     trace := trace st |}.

Definition push_events (es : list ConnectorEvent) (st : State) : State :=
  {| connectors := connectors st;
     listeners := listeners st;
     maintained_connections := maintained_connections st;
     loops := loops st;
     next_ref := next_ref st;
     _connections := _connections st;
     retry_period := retry_period st;
     module_logger := module_logger st;
     events := events st ++ es;
     trace := trace st |}.

Definition record (e : Effect) (st : State) : State :=
  {| connectors := connectors st;
     listeners := listeners st;
     maintained_connections := maintained_connections st;
     loops := loops st;
     next_ref := next_ref st;
     _connections := _connections st;
     retry_period := retry_period st;
     module_logger := module_logger st;
     events := events st;
     trace := trace st ++ [e] |}.

(** ** The monad of methods: state, and a value or an exception *)

Definition M (A : Type) : Type := State -> Res A * State.

Definition ret (A : Type) (a : A) : M A := fun st => (Ok a, st).

Definition raise (A : Type) (e : exn) : M A := fun st => (Raise e, st).

Definition bind (A B : Type) (m : M A) (k : A -> M B) : M B :=
  fun st =>
    match m st with
    | (Ok a, st') => k a st'
    | (Raise e, st') => (Raise e, st')
    end.

Definition get_state : M State := fun st => (Ok st, st).

Definition modify (f : State -> State) : M unit := fun st => (Ok tt, f st).

(** [try: m  except <caught>: handler e]. *)
Definition try_except (A : Type) (m : M A) (caught : exn -> bool)
    (handler : exn -> M A) : M A :=
  fun st =>
    match m st with
    | (Ok a, st') => (Ok a, st')
    | (Raise e, st') =>
        if caught e then handler e st' else (Raise e, st')
    end.

(** [try: m  finally: fin]: [fin] always runs; an exception of [fin]
    replaces the outcome of [m]. *)
Definition try_finally (A : Type) (m : M A) (fin : M unit) : M A :=
  fun st =>
    match m st with
    | (r, st') =>
        match fin st' with
        | (Ok _, st'') => (r, st'')
        | (Raise e, st'') => (Raise e, st'')
        end
    end.
End Store.

Arguments ret {C R A} a.
Arguments raise {C R A} e.
Arguments get_state {C R}.
Arguments modify {C R} f.

Declare Scope py_scope.
Delimit Scope py_scope with py.
Notation "x <- m ;; k" := (bind m (fun x => k))
  (at level 61, m at next level, right associativity) : py_scope.
Notation "m ;;; k" := (bind m (fun _ => k))
  (at level 61, right associativity) : py_scope.
Open Scope py_scope.

(** ** Calls on the external collaborators *)

Section Calls.
Context {C R : Type} `{Connector C}.

(** Events fired by connector [c] reach every [MaintainedConnection]
    that registered [_connector_events] with it; each forwards them to
    the event source with [self.events.fire]. *)
Definition forward (c : ref) (ks : list EventKind) (st : State C R)
  : State C R :=
  push_events
    (flat_map (fun k => map (fun _ => event_of k c) (listeners st c)) ks)
    st.

Definition finish (o : Outcome C) (st : State C R) : Res unit * State C R :=
  match raised o with
  | None => (Ok tt, st)
  | Some e => (Raise e, st)
  end.

(** [connector.connect()] *)
Definition call_connect (c : ref) : M C R unit :=
  fun st =>
    let o := connect (connectors st c) in
    finish o (forward c (fired o)
                (set_connector c (after o) (record (Call_connect c) st))).

(** [connector.disconnect()] *)
Definition call_disconnect (c : ref) : M C R unit :=
  fun st =>
    let o := disconnect (connectors st c) in
    finish o (forward c (fired o)
                (set_connector c (after o) (record (Call_disconnect c) st))).

(** [callback(maintained_connection)]: the connected-callback works on
    the connector of the maintained connection. *)
Definition call_callback (l : ref) (callback : C -> Outcome C) (c : ref)
  : M C R unit :=
  fun st =>
    let o := callback (connectors st c) in
    finish o (forward c (fired o)
                (set_connector c (after o)
                   (record (Call_connected_loop l) st))).

Definition log (r : LogRecord) : M C R unit :=
  modify (record (Call_log r)).

(** [stop_event.wait(timeout)]: returns the flag; the state of the
    objects is left as it is. *)
Definition stop_event_wait (l : ref) (timeout : Z) : M C R bool :=
  fun st => (Ok (ml_stop_event (loops st l)), record (Call_wait l timeout) st).
End Calls.

(** ** class MaintainedConnection *)

Module MaintainedConnection.
Section Methods.
Context {C R : Type} `{Connector C} `{RetryStrategy R}.

(** The attributes the class and its instances define; [close] is not
    one of them. *)
Definition attributes : list string :=
  ["resource"; "connector"; "retry_strategy"; "events"; "logger";
   "loop"; "_connector_events"; "_open"; "_close"; "maintain"]%string.

Definition hasattr (name : string) : bool :=
  existsb (String.eqb name) attributes.

(** [__init__]: a new object that listens to the connector. *)
Definition init (resource : string) (connector : ref) (retry_strategy : R)
    (log_ : Logger) : M C R ref :=
  fun st =>
    let self := next_ref st in
    (Ok self,
     add_listener connector self
       (set_maintained_connection self
          {| mc_resource := resource;
             mc_connector := connector;
             mc_retry_strategy := retry_strategy;
             mc_logger := log_;
             mc_loop := None |}
          (set_next_ref (S self) st))).

Definition _open (self : ref) : M C R bool :=
  st <- get_state ;;
  let mc := maintained_connections st self in
  let connector := connectors st (mc_connector mc) in
  let try_open := negb (connected connector) && available connector in
  (if try_open
   then
     try_except
       (call_connect (mc_connector mc) ;;;
        log (info_device_connected (mc_resource mc)))
       is_ConnectorError
       (fun e =>
          if isEnabledFor_DEBUG (mc_logger mc)
          then log (exception_logged e) ;;;
               log (debug_unable_to_connect (mc_resource mc) e)
          else ret tt)
   else ret tt) ;;;
  ret try_open.

Definition _close (self : ref) : M C R bool :=
  st <- get_state ;;
  let mc := maintained_connections st self in
  let was_connected := connected (connectors st (mc_connector mc)) in
  call_disconnect (mc_connector mc) ;;;
  (if was_connected
   then log (info_device_disconnected (mc_resource mc))
   else ret tt) ;;;
  ret was_connected.

(** [self.retry_strategy(current_time)] *)
Definition call_retry_strategy (self : ref) (current_time : Z)
  : M C R Z :=
  fun st =>
    let mc := maintained_connections st self in
    let (delay, rs) := evaluate (mc_retry_strategy mc) current_time in
    (Ok delay,
     set_maintained_connection self
       {| mc_resource := mc_resource mc;
          mc_connector := mc_connector mc;
          mc_retry_strategy := rs;
          mc_logger := mc_logger mc;
          mc_loop := mc_loop mc |} st).

Definition maintain (self : ref) (current_time : Z) : M C R bool :=
  delay <- call_retry_strategy self current_time ;;
  let will_try := (delay <=? 0)%Z in
  (if will_try then _open self ;;; ret tt else ret tt) ;;;
  ret will_try.

(** [managed_connection.close()]: the attribute lookup comes first. *)
Definition close (self : ref) : M C R bool :=
  if hasattr "close" then _close self else raise (AttributeError "close").
End Methods.
End MaintainedConnection.

(** ** class MaintainedConnectionLoop(AsyncLoop) *)

Module MaintainedConnectionLoop.
Section Methods.
Context {C R : Type} `{Connector C} `{RetryStrategy R}.

(** [__init__(maintained_connection, loop=None)]; the stop event of
    [AsyncLoop] starts unset and no worker runs yet. *)
Definition init (maintained_connection : ref)
    (loop_ : option (C -> Outcome C)) : M C R ref :=
  fun st =>
    let self := next_ref st in
    (Ok self,
     set_loop self
       {| ml_maintained_connection := maintained_connection;
          ml_loop := loop_;
          ml_stop_event := false;
          ml_worker_active := false |}
       (set_next_ref (S self) st)).

Definition _connected_loop (self : ref) : M C R unit :=
  st <- get_state ;;
  let l := loops st self in
  match ml_loop l with
  | Some callback =>
      call_callback self callback
        (mc_connector
           (maintained_connections st (ml_maintained_connection l)))
  | None => ret tt
  end.

(** One pass of the body of [while connector.connected]: the
    callback, and [_close()] when it did not complete.  [time.sleep(0)]
    yields to other threads and changes nothing here. *)
Definition connected_body (self : ref) : M C R unit :=
  fun st =>
    match _connected_loop self st with
    | (Ok _, st') => (Ok tt, st')
    | (Raise e, st') =>
        match MaintainedConnection._close
                (ml_maintained_connection (loops st' self)) st' with
        | (Ok _, st'') => (Raise e, st'')
        | (Raise e', st'') => (Raise e', st'')
        end
    end.

(** [while maintained_connection.connector.connected: ...]; [None]
    when [fuel] passes are not enough. *)
Fixpoint while_connected (fuel : nat) (self : ref) (st : State C R)
  : option (Res unit * State C R) :=
  let mc := maintained_connections st
              (ml_maintained_connection (loops st self)) in
  if connected (connectors st (mc_connector mc))
  then
    match fuel with
    | O => None
    | S fuel' =>
        match connected_body self st with
        | (Ok _, st') => while_connected fuel' self st'
        | (Raise e, st') => Some (Raise e, st')
        end
    end
  else Some (Ok tt, st).

(** The [finally] clause: [stop_event.wait(retry_strategy())], the
    retry strategy reading the clock at [now]. *)
Definition final_wait (self : ref) (now : Z) : M C R unit :=
  st <- get_state ;;
  delay <- MaintainedConnection.call_retry_strategy
             (ml_maintained_connection (loops st self)) now ;;
  stop_event_wait self delay ;;;
  ret tt.

Definition loop (fuel : nat) (self : ref) (now : Z) (st : State C R)
  : option (Res unit * State C R) :=
  let maintained_connection := ml_maintained_connection (loops st self) in
  let body :=
    match MaintainedConnection._open maintained_connection st with
    | (Ok _, st1) => while_connected fuel self st1
    | (Raise e, st1) => Some (Raise e, st1)
    end in
  match body with
  | None => None
  | Some (r, st2) =>
      match final_wait self now st2 with
      | (Ok _, st3) => Some (r, st3)
      | (Raise e, st3) => Some (Raise e, st3)
      end
  end.
End Methods.
End MaintainedConnectionLoop.

(** ** class AsyncLoop *)

Module AsyncLoop.
Section Methods.
Context {C R : Type} `{Connector C}.

Definition with_flags (stop_event worker_active : bool)
    (l : MaintainedConnectionLoop_state C)
  : MaintainedConnectionLoop_state C :=
  {| ml_maintained_connection := ml_maintained_connection l;
     ml_loop := ml_loop l;
     ml_stop_event := stop_event;
     ml_worker_active := worker_active |}.

(** Modelled from the spec: [AsyncLoop.start] of
    [controlbox/protocol/async.py], which is not among the sources.
    It starts the worker of the loop. *)
Definition start (self : ref) : M C R unit :=
  modify (fun st =>
            set_loop self
              (with_flags (ml_stop_event (loops st self)) true
                 (loops st self))
              (record (Call_start self) st)).

(** Modelled from the spec: [AsyncLoop.stop] of
    [controlbox/protocol/async.py], which is not among the sources.
    It sets the cancellation flag, issues the disconnect of a stop
    request, and returns once the worker has exited, so that the
    connector is disconnected and the worker no longer runs. *)
Definition stop (self : ref) : M C R unit :=
  modify (fun st =>
            set_loop self
              (with_flags true (ml_worker_active (loops st self))
                 (loops st self))
              (record (Call_stop self) st)) ;;;
  st <- get_state ;;
  let c := mc_connector
             (maintained_connections st
                (ml_maintained_connection (loops st self))) in
  (if connected (connectors st c) then call_disconnect c else ret tt) ;;;
  modify (fun st =>
            set_loop self (with_flags true false (loops st self)) st).
End Methods.
End AsyncLoop.

(** ** class ConnectionManager *)

Module ConnectionManager.
Section Methods.
Context {C : Type} `{Connector C}.

Definition Method : Type -> Type := M C PeriodRetryStrategy.

(** [connection.loop.stop()]; without a loop the attribute lookup on
    [None] fails. *)
Definition loop_stop (connection : ref) : Method unit :=
  st <- get_state ;;
  match mc_loop (maintained_connections st connection) with
  | Some l => AsyncLoop.stop l
  | None => raise (AttributeError "stop")
  end.

Definition loop_start (connection : ref) : Method unit :=
  st <- get_state ;;
  match mc_loop (maintained_connections st connection) with
  | Some l => AsyncLoop.start l
  | None => raise (AttributeError "start")
  end.

(** [connection.loop = value] *)
Definition set_loop_attr (connection : ref) (value : option ref)
  : Method unit :=
  modify (fun st =>
            let mc := maintained_connections st connection in
            set_maintained_connection connection
              {| mc_resource := mc_resource mc;
                 mc_connector := mc_connector mc;
                 mc_retry_strategy := mc_retry_strategy mc;
                 mc_logger := mc_logger mc;
                 mc_loop := value |} st).

(** [if resource in self._connections: connection =
    self._connections[resource] ...]: one lookup decides both. *)
Definition unavailable (resource : string) : Method unit :=
  st <- get_state ;;
  match PyDict.get resource (_connections st) with
  | Some connection =>
      loop_stop connection ;;;
      set_loop_attr connection None ;;;
      modify (fun st =>
                set_connections (PyDict.del resource (_connections st)) st)
  | None => ret tt
  end.

Definition _new_maintained_connection (resource : string)
    (connector : ref) (timeout : Z) : Method ref :=
  st <- get_state ;;
  mc <- MaintainedConnection.init resource connector
          {| period := timeout; last_attempt := None |}
          (module_logger st) ;;
  loop_ <- MaintainedConnectionLoop.init mc None ;;
  set_loop_attr mc (Some loop_) ;;;
  ret mc.

(** [conn = self._connections[resource] =
    self._new_maintained_connection(...)] *)
Definition store_new (resource : string) (connector : ref) : Method ref :=
  st <- get_state ;;
  conn <- _new_maintained_connection resource connector
            (retry_period st) ;;
  modify (fun st =>
            set_connections
              (PyDict.set resource conn (_connections st)) st) ;;;
  ret conn.

(** The statements of [available] after the test of [previous]. *)
Definition install (resource : string) (connector : ref) : Method unit :=
  conn <- store_new resource connector ;;
  loop_start conn.

Definition available (resource : string) (connector : ref)
  : Method unit :=
  st <- get_state ;;
  match PyDict.get resource (_connections st) with
  | Some previous =>
      if Nat.eqb (mc_connector (maintained_connections st previous))
                 connector
      then ret tt
      else loop_stop previous ;;; install resource connector
  | None => install resource connector
  end.

(** The property [connections]: a copy of the dictionary. *)
Definition connections : Method (PyDict.dict ref) :=
  st <- get_state ;;
  ret (PyDict.copy (_connections st)).

(** The body of the [for] statement of [maintain]. *)
Definition maintain_one (managed_connection : ref) (now : Z)
  : Method unit :=
  try_except
    (MaintainedConnection.maintain managed_connection now ;;; ret tt)
    (fun _ => true)
    (fun e =>
       log (exception_unexpected e managed_connection) ;;;
       MaintainedConnection.close managed_connection ;;;
       ret tt).

(** [current_time] is called once for each record; its argument here
    is the number of calls made before. *)
Fixpoint maintain_each (snapshot : list ref) (current_time : nat -> Z)
    (calls : nat) : Method unit :=
  match snapshot with
  | [] => ret tt
  | managed_connection :: rest =>
      maintain_one managed_connection (current_time calls) ;;;
      maintain_each rest current_time (S calls)
  end.

Definition maintain (current_time : nat -> Z) : Method unit :=
  snapshot <- connections ;;
  maintain_each (PyDict.values snapshot) current_time 0.
End Methods.
End ConnectionManager.

(** ** class ConnectionDiscovery *)

Module ConnectionDiscovery.
(** The events of a resource discovery, as [resource_event] tells them
    apart by their class; [key] and [resource] are the attributes it
    reads. *)
Inductive ResourceEvent (D : Type) : Type :=
| ResourceAvailableEvent (key : string) (resource : D)
| ResourceUnavailableEvent (key : string)
| OtherEvent.

Arguments ResourceAvailableEvent {D} key resource.
Arguments ResourceUnavailableEvent {D} key.
Arguments OtherEvent {D}.

Section Methods.
Context {C D : Type} `{Connector C}.

(** The attributes [manager] and [connector_factory].  [manager] is the
    manager of the store or [None]; the factory is any callable, which
    answers a connector or [None]. *)
Record ConnectionDiscovery_state : Type := {
  manager : bool;
  connector_factory : D -> M C PeriodRetryStrategy (option ref)
}.

Definition _create_connector (self : ConnectionDiscovery_state)
    (resource : D) : M C PeriodRetryStrategy (option ref) :=
  connector_factory self resource.

Definition resource_event (self : ConnectionDiscovery_state)
    (event : ResourceEvent D) : M C PeriodRetryStrategy unit :=
  if negb (manager self)
  then ret tt
  else
    match event with
    | ResourceAvailableEvent key resource =>
        connector <- _create_connector self resource ;;
        match connector with
        | Some c => ConnectionManager.available key c
        | None => ret tt
        end
    | ResourceUnavailableEvent key => ConnectionManager.unavailable key
    | OtherEvent => ret tt
    end.
End Methods.
End ConnectionDiscovery.

(** ** class TCPServerDiscovery *)

Module TCPServerDiscovery.
(** What zeroconf knows of a service. *)
Record ServiceInfo : Type := {
  server : string;
  address : string;
  port : nat
}.

Record ZeroconfTCPServerEndpoint : Type := {
  hostname : string;
  ip_address : string;
  tcp_port : nat;
  info : ServiceInfo
}.

(** The two event classes a notification is published with. *)
Inductive EventClass : Type :=
| ResourceAvailableEvent
| ResourceUnavailableEvent.

(** [event(self, info)] *)
Record ResourceEvent : Type := {
  event_class : EventClass;
  resource : ZeroconfTCPServerEndpoint
}.

(** A [Zeroconf] object, as far as the code uses it:
    [get_service_info(type, name)], which answers [None] or an info
    object; info objects and endpoints are true in a test. *)
Definition Zeroconf : Type := string -> string -> option ServiceInfo.

(** [event_queue], the batches handed to [_fire_events], and the
    records of the module's logger. *)
Record Discovery : Type := {
  event_queue : list ResourceEvent;
  fired_batches : list (list ResourceEvent);
  logged : list LogRecord
}.

Definition endpoint_of (i : ServiceInfo) : ZeroconfTCPServerEndpoint :=
  {| hostname := server i;
     ip_address := address i;
     tcp_port := port i;
     info := i |}.

Definition resource_for_service (zeroconf : Zeroconf)
    (type name : string) : option ZeroconfTCPServerEndpoint :=
  match zeroconf type name with
  | None => None
  | Some i => Some (endpoint_of i)
  end.

Definition _publish (event : EventClass) (zeroconf : Zeroconf)
    (svc_type svc_name : string) (self : Discovery) : Discovery :=
  match resource_for_service zeroconf svc_type svc_name with
  | Some r =>
      {| event_queue :=
           event_queue self ++ [{| event_class := event; resource := r |}];
         fired_batches := fired_batches self;
         logged := logged self |}
  | None =>
      {| event_queue := event_queue self;
         fired_batches := fired_batches self;
         logged :=
           logged self ++ [warn_no_info_for_service svc_name svc_type] |}
  end.

Definition remove_service (zeroconf : Zeroconf) (type name : string)
  : Discovery -> Discovery :=
  _publish ResourceUnavailableEvent zeroconf type name.

Definition add_service (zeroconf : Zeroconf) (type name : string)
  : Discovery -> Discovery :=
  _publish ResourceAvailableEvent zeroconf type name.

(** [while not queue.empty(): events.append(queue.get())] *)
Fixpoint drain (queue events : list ResourceEvent) : list ResourceEvent :=
  match queue with
  | [] => events
  | e :: rest => drain rest (events ++ [e])
  end.

Definition update (self : Discovery) : Discovery :=
  match event_queue self with
  | [] => self
  | _ :: _ =>
      {| event_queue := [];
         fired_batches := fired_batches self ++ [drain (event_queue self) []];
         logged := logged self |}
  end.
Definition qualify_service_type (service_subtype : string) : string :=
  ("_" ++ service_subtype ++ "._tcp._local.")%string.

(** A notification of the service browser, with the zeroconf object it
    hands over. *)
Inductive Notification : Type :=
| Added (zeroconf : Zeroconf) (type name : string)
| Removed (zeroconf : Zeroconf) (type name : string).

Definition notify (self : Discovery) (n : Notification) : Discovery :=
  match n with
  | Added zeroconf type name => add_service zeroconf type name self
  | Removed zeroconf type name => remove_service zeroconf type name self
  end.

(** The event a notification stands for, if zeroconf knows the
    service. *)
Definition event_of_notification (n : Notification) : list ResourceEvent :=
  match n with
  | Added zeroconf type name =>
      match zeroconf type name with
      | Some i => [{| event_class := ResourceAvailableEvent;
                      resource := endpoint_of i |}]
      | None => []
      end
  | Removed zeroconf type name =>
      match zeroconf type name with
      | Some i => [{| event_class := ResourceUnavailableEvent;
                      resource := endpoint_of i |}]
      | None => []
      end
  end.
End TCPServerDiscovery.

(** ** Reading a run *)

Section Observations.
Context {C R : Type}.

(** The calls made between two states of one run. *)
Definition calls_since (st st' : State C R) : list Effect :=
  skipn (List.length (trace st)) (trace st').

(** The events pushed to the event source between two states. *)
Definition events_since (st st' : State C R) : list ConnectorEvent :=
  skipn (List.length (events st)) (events st').

Definition is_connect (c : ref) (e : Effect) : bool :=
  match e with
  | Call_connect c' => Nat.eqb c c'
  | _ => false
  end.

Definition is_disconnect (c : ref) (e : Effect) : bool :=
  match e with
  | Call_disconnect c' => Nat.eqb c c'
  | _ => false
  end.

Definition is_callback (l : ref) (e : Effect) : bool :=
  match e with
  | Call_connected_loop l' => Nat.eqb l l'
  | _ => false
  end.

Definition count (p : Effect -> bool) (t : list Effect) : nat :=
  List.length (filter p t).

(** The connector a loop works on. *)
Definition connector_of (st : State C R) (l : ref) : ref :=
  mc_connector (maintained_connections st (ml_maintained_connection (loops st l))).

(** The worker of loop [l] exists and runs. *)
Definition worker_runs (st : State C R) (l : ref) : bool :=
  Nat.ltb l (next_ref st) && ml_worker_active (loops st l).

(** Two states that differ at most in the stop flags of the loops. *)
Definition same_but_stop_events (st1 st2 : State C R) : Prop :=
  (forall r, connectors st1 r = connectors st2 r) /\
  (forall r, listeners st1 r = listeners st2 r) /\
  (forall r, maintained_connections st1 r = maintained_connections st2 r) /\
  (forall r,
     ml_maintained_connection (loops st1 r)
     = ml_maintained_connection (loops st2 r) /\
     ml_loop (loops st1 r) = ml_loop (loops st2 r) /\
     ml_worker_active (loops st1 r) = ml_worker_active (loops st2 r)) /\
  next_ref st1 = next_ref st2 /\
  _connections st1 = _connections st2 /\
  retry_period st1 = retry_period st2 /\
  module_logger st1 = module_logger st2 /\
  events st1 = events st2 /\
  trace st1 = trace st2.







(** A method that does not tell apart two states differing in stop
    flags only. *)
Definition blind_to_stop_events (A : Type) (m : M C R A) : Prop :=
  forall s1 s2,
    same_but_stop_events s1 s2 ->
    fst (m s1) = fst (m s2) /\
    same_but_stop_events (snd (m s1)) (snd (m s2)).

(** Two runs that end alike: both lack fuel, or both give the same
    result in states differing in stop flags only. *)
Definition same_outcome (A : Type) (o1 o2 : option (Res A * State C R))
  : Prop :=
  match o1, o2 with
  | Some (r1, t1), Some (r2, t2) => r1 = r2 /\ same_but_stop_events t1 t2
  | None, None => True
  | _, _ => False
  end.


(** [stop()] has been requested on loop [l]. *)
Definition request_stop (l : ref) (st : State C R) : State C R :=
  set_loop l
    {| ml_maintained_connection := ml_maintained_connection (loops st l);
       ml_loop := ml_loop (loops st l);
       ml_stop_event := true;
       ml_worker_active := ml_worker_active (loops st l) |} st.
End Observations.

(** ** Frame conditions *)

Section Frames.
Context {C R : Type}.

(** A method that leaves one observation [f] of the store as it is,
    whatever it returns or raises. *)
Definition preserves (A B : Type) (f : State C R -> B) (m : M C R A)
  : Prop :=
  forall st, f (snd (m st)) = f st.
End Frames.

(** ** A scripted connector for the examples *)

Module Fixture.
Inductive Step : Type :=
| ReadOk
| ReadDrop
| ReadRaise (e : exn).

(** [tc_connect_raises] is what [connect()] raises; [tc_script] tells
    what the next calls of the connected-callback do, and an exhausted
    script drops the connection. *)
Record TestConnector : Type := {
  tc_connected : bool;
  tc_available : bool;
  tc_connect_raises : option exn;
  tc_script : list Step
}.

Definition with_connected (b : bool) (script : list Step) (c : TestConnector)
  : TestConnector :=
  {| tc_connected := b;
     tc_available := tc_available c;
     tc_connect_raises := tc_connect_raises c;
     tc_script := script |}.

Definition tc_connect (c : TestConnector) : Outcome TestConnector :=
  match tc_connect_raises c with
  | Some e => {| raised := Some e; after := c; fired := [] |}
  | None =>
      {| raised := None;
         after := with_connected true (tc_script c) c;
         fired := [Connected] |}
  end.

Definition tc_disconnect (c : TestConnector) : Outcome TestConnector :=
  if tc_connected c
  then {| raised := None;
          after := with_connected false (tc_script c) c;
          fired := [Disconnected] |}
  else {| raised := None; after := c; fired := [] |}.

(** The connected-callback of the examples. *)
Definition read_response (c : TestConnector) : Outcome TestConnector :=
  match tc_script c with
  | ReadOk :: rest =>
      {| raised := None; after := with_connected true rest c; fired := [] |}
  | ReadRaise e :: rest =>
      {| raised := Some e; after := with_connected true rest c; fired := [] |}
  | ReadDrop :: rest =>
      {| raised := None;
         after := with_connected false rest c;
         fired := [Disconnected] |}
  | [] =>
      {| raised := None;
         after := with_connected false [] c;
         fired := [Disconnected] |}
  end.

#[global] Instance TestConnector_Connector : Connector TestConnector :=
  {| connected := tc_connected;
     available := tc_available;
     connect := tc_connect;
     disconnect := tc_disconnect |}.

Definition debug_logger : Logger := {| isEnabledFor_DEBUG := true |}.

Definition no_strategy : PeriodRetryStrategy :=
  {| period := 0; last_attempt := None |}.

(** A store without objects, over the given connectors, and a manager
    with the default retry period of 5. *)
Definition empty_store (cs : ref -> TestConnector)
  : State TestConnector PeriodRetryStrategy :=
  {| connectors := cs;
     listeners := fun _ => [];
     maintained_connections :=
       fun _ => {| mc_resource := "";
                   mc_connector := 0;
                   mc_retry_strategy := no_strategy;
                   mc_logger := debug_logger;
                   mc_loop := None |};
     loops :=
       fun _ => {| ml_maintained_connection := 0;
                   ml_loop := None;
                   ml_stop_event := false;
                   ml_worker_active := false |};
     next_ref := 0;
     _connections := [];
     retry_period := 5;
     module_logger := debug_logger;
     events := [];
     trace := [] |}.

Definition run (A : Type) (m : M TestConnector PeriodRetryStrategy A)
    (st : State TestConnector PeriodRetryStrategy)
  : State TestConnector PeriodRetryStrategy :=
  snd (m st).

(** A connector that is neither connected nor available. *)
Definition absent : TestConnector :=
  {| tc_connected := false;
     tc_available := false;
     tc_connect_raises := None;
     tc_script := [] |}.

(** A connector that can be connected and then answers as scripted. *)
Definition reachable (script : list Step) : TestConnector :=
  {| tc_connected := false;
     tc_available := true;
     tc_connect_raises := None;
     tc_script := script |}.

(** A connector that is connected already. *)
Definition live (script : list Step) : TestConnector :=
  {| tc_connected := true;
     tc_available := true;
     tc_connect_raises := None;
     tc_script := script |}.

(** A connector whose [connect()] raises [e]. *)
Definition failing (e : exn) : TestConnector :=
  {| tc_connected := false;
     tc_available := true;
     tc_connect_raises := Some e;
     tc_script := [] |}.

(** One maintained connection, reference 0, on connector 0. *)
Definition one_connection (c : TestConnector)
  : State TestConnector PeriodRetryStrategy :=
  run (MaintainedConnection.init "dev1" 0 {| period := 5; last_attempt := None |}
         debug_logger)
      (empty_store (fun _ => c)).

(** The same with a loop, reference 1, that calls [read_response]. *)
Definition one_loop (c : TestConnector)
  : State TestConnector PeriodRetryStrategy :=
  run (MaintainedConnectionLoop.init 0 (Some read_response)) (one_connection c).

(** A manager to which resources "A" (connector 0) and "B" (connector 1)
    were announced. *)
Definition two_resources (a b : TestConnector)
  : State TestConnector PeriodRetryStrategy :=
  run (ConnectionManager.available "B" 1)
    (run (ConnectionManager.available "A" 0)
       (empty_store (fun r => if Nat.eqb r 0 then a else b))).
(** A connector that always connects and disconnects without fail. *)
Definition steady_connect (c : bool) : Outcome bool :=
  {| raised := None; after := true; fired := [Connected] |}.

Definition steady_disconnect (c : bool) : Outcome bool :=
  {| raised := None;
     after := false;
     fired := if c then [Disconnected] else [] |}.

Definition SteadyConnector : Connector bool :=
  {| connected := fun c => c;
     available := fun _ => true;
     connect := steady_connect;
     disconnect := steady_disconnect |}.

(** A manager of steady connectors to which "A" was announced. *)
Definition steady_store : State bool PeriodRetryStrategy :=
  snd (ConnectionManager.available (H:=SteadyConnector) "A" 0
         {| connectors := fun _ => false;
            listeners := fun _ => [];
            maintained_connections :=
              fun _ => {| mc_resource := "";
                          mc_connector := 0;
                          mc_retry_strategy := no_strategy;
                          mc_logger := debug_logger;
                          mc_loop := None |};
            loops :=
              fun _ => {| ml_maintained_connection := 0;
                          ml_loop := None;
                          ml_stop_event := false;
                          ml_worker_active := false |};
            next_ref := 0;
            _connections := [];
            retry_period := 5;
            module_logger := debug_logger;
            events := [];
            trace := [] |}).

(** A discovery whose factory answers connector 1 for every resource but
    the empty one, which it vetoes. *)
Definition test_discovery
  : ConnectionDiscovery.ConnectionDiscovery_state (C:=TestConnector)
      (D:=string) :=
  {| ConnectionDiscovery.manager := true;
     ConnectionDiscovery.connector_factory :=
       fun resource =>
         if String.eqb resource "" then ret None else ret (Some 1) |}.
End Fixture.

(** * Properties *)

(** ** Traces *)

Lemma skipn_length_app (A : Type) (l k : list A) :
  skipn (List.length l) (l ++ k) = k.
Proof.
  induction l as [|x l IH]; simpl; [reflexivity | exact IH].
Qed.

Lemma calls_since_app (C R : Type) (st st' : State C R) (l : list Effect) :
  trace st' = trace st ++ l -> calls_since st st' = l.
Proof.
  intros E. unfold calls_since. rewrite E. apply skipn_length_app.
Qed.

Lemma calls_since_refl (C R : Type) (st st' : State C R) :
  trace st' = trace st -> calls_since st st' = [].
Proof.
  intros E. apply calls_since_app. rewrite E, app_nil_r. reflexivity.
Qed.

Lemma events_since_app (C R : Type) (st st' : State C R)
    (l : list ConnectorEvent) :
  events st' = events st ++ l -> events_since st st' = l.
Proof.
  intros E. unfold events_since. rewrite E. apply skipn_length_app.
Qed.

Lemma upd_same (A : Type) (h : ref -> A) (r : ref) (v : A) :
  upd h r v r = v.
Proof.
  unfold upd. rewrite Nat.eqb_refl. reflexivity.
Qed.

Lemma upd_other (A : Type) (h : ref -> A) (r r' : ref) (v : A) :
  r' <> r -> upd h r v r' = h r'.
Proof.
  intros N. unfold upd. apply Nat.eqb_neq in N. rewrite N. reflexivity.
Qed.

(** Unfolds the methods of a maintained connection down to the store. *)
Ltac step_methods :=
  unfold MaintainedConnection.maintain, MaintainedConnection._open,
    MaintainedConnection._close, MaintainedConnection.call_retry_strategy,
    MaintainedConnection.close, call_connect, call_disconnect,
    call_callback, stop_event_wait, log, try_except, try_finally, finish,
    bind, ret, raise, modify, get_state in *.

Ltac close_trace :=
  apply calls_since_app; simpl; rewrite <- ?app_assoc; reflexivity.

(** ** MaintainedConnection *)

Section MaintainedConnection_properties.
Context {C R : Type} `{Connector C} `{RetryStrategy R}.

(** What [_open] returns and which calls it makes, case by case. *)
Lemma open_runs (st : State C R) (self : ref) :
  let mc := maintained_connections st self in
  let c := mc_connector mc in
  let try_open :=
    negb (connected (connectors st c)) && available (connectors st c) in
  let r := MaintainedConnection._open self st in
  fst r =
    (if try_open
     then match raised (connect (connectors st c)) with
          | Some e => if is_ConnectorError e then Ok true else Raise e
          | None => Ok true
          end
     else Ok false) /\
  calls_since st (snd r) =
    (if try_open
     then Call_connect c ::
          match raised (connect (connectors st c)) with
          | Some e =>
              if is_ConnectorError e && isEnabledFor_DEBUG (mc_logger mc)
              then [Call_log (exception_logged e);
                    Call_log (debug_unable_to_connect (mc_resource mc) e)]
              else []
          | None => [Call_log (info_device_connected (mc_resource mc))]
          end
     else []).
Proof.
  intros mc c try_open r. subst r. step_methods. fold mc. fold c. fold try_open.
  destruct try_open.
  - destruct (raised (connect (connectors st c))) as [e|] eqn:Er; simpl.
    + destruct (is_ConnectorError e) eqn:Ec; simpl.
      * destruct (isEnabledFor_DEBUG (mc_logger mc)); simpl;
          (split; [reflexivity | close_trace]).
      * split; [reflexivity | close_trace].
    + split; [reflexivity | close_trace].
  - simpl. split; [reflexivity | apply calls_since_refl; reflexivity].
Qed.

(** C7: [_open] calls [connector.connect()] exactly when the connector is
    not connected and is available.  A [ConnectorError] of [connect()]
    never leaves [_open]: it is caught and logged at debug level, the
    two records being made when the logger is enabled for DEBUG.  When
    [_open] returns, it returns whether the connector was tried. *)
Theorem open_tries_connector_when_disconnected_and_available
    (st : State C R) (self : ref) :
  let mc := maintained_connections st self in
  let c := mc_connector mc in
  let try_open :=
    negb (connected (connectors st c)) && available (connectors st c) in
  let r := MaintainedConnection._open self st in
  count (is_connect c) (calls_since st (snd r)) = (if try_open then 1 else 0) /\
  match fst r with
  | Ok tried => tried = try_open
  | Raise e =>
      is_ConnectorError e = false /\
      try_open = true /\
      raised (connect (connectors st c)) = Some e
  end /\
  match raised (connect (connectors st c)) with
  | Some e =>
      if try_open && is_ConnectorError e
      then fst r = Ok true /\
           calls_since st (snd r) =
             Call_connect c ::
             (if isEnabledFor_DEBUG (mc_logger mc)
              then [Call_log (exception_logged e);
                    Call_log (debug_unable_to_connect (mc_resource mc) e)]
              else [])
      else True
  | None => True
  end.
Proof.
  intros mc c try_open r.
  destruct (open_runs st self) as [Hr Hc].
  fold mc c try_open r in Hr, Hc. rewrite Hr, Hc.
  destruct try_open; simpl.
  - destruct (raised (connect (connectors st c))) as [e|]; simpl.
    + unfold count. simpl. rewrite Nat.eqb_refl.
      destruct (is_ConnectorError e) eqn:Ec; simpl.
      * destruct (isEnabledFor_DEBUG (mc_logger mc)); simpl; auto.
      * auto.
    + unfold count. simpl. rewrite Nat.eqb_refl. simpl. auto.
  - destruct (raised (connect (connectors st c))); auto.
Qed.

(** What [_close] returns and which calls it makes. *)
Lemma close_runs (st : State C R) (self : ref) :
  let mc := maintained_connections st self in
  let c := mc_connector mc in
  let was_connected := connected (connectors st c) in
  let r := MaintainedConnection._close self st in
  fst r =
    match raised (disconnect (connectors st c)) with
    | Some e => Raise e
    | None => Ok was_connected
    end /\
  calls_since st (snd r) =
    Call_disconnect c ::
    match raised (disconnect (connectors st c)) with
    | Some e => []
    | None =>
        if was_connected
        then [Call_log (info_device_disconnected (mc_resource mc))]
        else []
    end.
Proof.
  intros mc c was_connected r. subst r. step_methods.
  fold mc. fold c. fold was_connected.
  destruct (raised (disconnect (connectors st c))) as [e|]; simpl.
  - split; [reflexivity | close_trace].
  - destruct was_connected; simpl; (split; [reflexivity | close_trace]).
Qed.

(** C8, as the code has it: [_close] calls [connector.disconnect()] once
    on every call, whether or not the connector is connected; it logs
    the disconnection only when the connector was connected, and when it
    returns, it returns whether the connector was connected at the time
    of the call. *)
Theorem close_always_disconnects (st : State C R) (self : ref) :
  let mc := maintained_connections st self in
  let c := mc_connector mc in
  let was_connected := connected (connectors st c) in
  let r := MaintainedConnection._close self st in
  count (is_disconnect c) (calls_since st (snd r)) = 1 /\
  match fst r with
  | Ok b => b = was_connected
  | Raise e => raised (disconnect (connectors st c)) = Some e
  end /\
  calls_since st (snd r) =
    Call_disconnect c ::
    match raised (disconnect (connectors st c)) with
    | Some e => []
    | None =>
        if was_connected
        then [Call_log (info_device_disconnected (mc_resource mc))]
        else []
    end.
Proof.
  intros mc c was_connected r.
  destruct (close_runs st self) as [Hr Hc].
  fold mc c was_connected r in Hr, Hc. rewrite Hr, Hc.
  unfold count. simpl. rewrite Nat.eqb_refl.
  destruct (raised (disconnect (connectors st c))); simpl.
  - auto.
  - destruct was_connected; simpl; auto.
Qed.

(** The retry strategy is consulted with the time given, and only the
    strategy of the record changes. *)
Lemma call_retry_strategy_runs (st : State C R) (self : ref) (now : Z) :
  let mc := maintained_connections st self in
  let r := MaintainedConnection.call_retry_strategy self now st in
  fst r = Ok (fst (evaluate (mc_retry_strategy mc) now)) /\
  trace (snd r) = trace st /\
  events (snd r) = events st /\
  connectors (snd r) = connectors st /\
  _connections (snd r) = _connections st /\
  mc_connector (maintained_connections (snd r) self) = mc_connector mc.
Proof.
  intros mc r. subst r. unfold MaintainedConnection.call_retry_strategy.
  fold mc. destruct (evaluate (mc_retry_strategy mc) now) as [delay rs].
  simpl. rewrite upd_same. simpl. auto 10.
Qed.

(** C6, as the code has it: [maintain] consults the retry strategy with
    the time given and calls [_open] exactly when the delay is [<= 0];
    when it returns, its result says whether the delay was [<= 0], that
    is whether [_open] was called.  [connect()] is called only when,
    besides, the connector is not connected and is available. *)
Theorem maintain_returns_whether_open_was_called
    (st : State C R) (self : ref) (now : Z) :
  let mc := maintained_connections st self in
  let c := mc_connector mc in
  let delay := fst (evaluate (mc_retry_strategy mc) now) in
  let try_open :=
    negb (connected (connectors st c)) && available (connectors st c) in
  let st1 := snd (MaintainedConnection.call_retry_strategy self now st) in
  let r := MaintainedConnection.maintain self now st in
  r = (if (delay <=? 0)%Z
       then match MaintainedConnection._open self st1 with
            | (Ok _, s) => (Ok true, s)
            | (Raise e, s) => (Raise e, s)
            end
       else (Ok false, st1)) /\
  match fst r with
  | Ok will_try => will_try = (delay <=? 0)%Z
  | Raise e => (delay <=? 0)%Z = true
  end /\
  count (is_connect c) (calls_since st (snd r))
  = (if (delay <=? 0)%Z && try_open then 1 else 0).
Proof.
  intros mc c delay try_open st1 r.
  destruct (call_retry_strategy_runs st self now)
    as (Hd & Ht & _ & Hcs & _ & Hmc).
  fold mc st1 in Hd, Ht, Hcs, Hmc.
  assert (Er : r = (if (delay <=? 0)%Z
       then match MaintainedConnection._open self st1 with
            | (Ok _, s) => (Ok true, s)
            | (Raise e, s) => (Raise e, s)
            end
       else (Ok false, st1))).
  { subst r. unfold MaintainedConnection.maintain, bind at 1.
    destruct (MaintainedConnection.call_retry_strategy self now st)
      as [rd s1] eqn:Ecall.
    simpl in Hd. subst rd. subst st1. simpl. fold delay.
    destruct (delay <=? 0)%Z.
    - unfold bind, ret.
      destruct (MaintainedConnection._open self s1) as [[b|e] s2];
        reflexivity.
    - reflexivity. }
  split; [exact Er|].
  rewrite Er. clear Er.
  destruct (open_runs st1 self) as [Hr Hc].
  rewrite Hmc, Hcs in Hr, Hc. fold c try_open in Hr, Hc.
  assert (Hsince : forall s, calls_since st s = calls_since st1 s).
  { intros s. unfold calls_since. rewrite Ht. reflexivity. }
  destruct (delay <=? 0)%Z; simpl.
  - destruct (MaintainedConnection._open self st1) as [[b|e] s2];
      simpl in *; rewrite Hsince, Hc; (split; [reflexivity|]);
      unfold count; destruct try_open; simpl; try reflexivity;
      rewrite Nat.eqb_refl;
      destruct (raised (connect (connectors st c))) as [e'|];
      simpl; try reflexivity;
      destruct (is_ConnectorError e' && isEnabledFor_DEBUG _);
      reflexivity.
  - split; [reflexivity|].
    rewrite (calls_since_refl st st1 Ht). reflexivity.
Qed.
End MaintainedConnection_properties.

Section MaintainedConnection_examples.
Import Fixture.

(** C6 fails as stated: the retry is due on the first call, so
    [maintain] returns [True], yet the connector is not available, no
    [connect()] is attempted and [_open] itself answers [False]. *)
Lemma maintain_true_without_attempt :
  let st := one_connection absent in
  let r := MaintainedConnection.maintain 0 100%Z st in
  fst r = Ok true /\
  count (is_connect 0) (calls_since st (snd r)) = 0 /\
  calls_since st (snd r) = [] /\
  fst (MaintainedConnection._open 0 st) = Ok false.
Proof.
  vm_compute. auto.
Qed.

(** C8 fails as stated: [_close] on a connector that is not connected
    still calls [disconnect()]. *)
Lemma close_disconnects_when_not_connected :
  let st := one_connection absent in
  let r := MaintainedConnection._close 0 st in
  connected (connectors st 0) = false /\
  fst r = Ok false /\
  calls_since st (snd r) = [Call_disconnect 0].
Proof.
  vm_compute. auto.
Qed.
End MaintainedConnection_examples.

(** ** MaintainedConnectionLoop *)


Section MaintainedConnectionLoop_properties.
Context {C R : Type} `{Connector C} `{RetryStrategy R}.

(** [_open] on a connector that can be connected and whose [connect()]
    returns. *)
Lemma open_connects (st : State C R) (self : ref) :
  let mc := maintained_connections st self in
  let c := mc_connector mc in
  let x0 := connectors st c in
  connected x0 = false ->
  available x0 = true ->
  raised (connect x0) = None ->
  MaintainedConnection._open self st =
    (Ok true,
     record (Call_log (info_device_connected (mc_resource mc)))
       (forward c (fired (connect x0))
          (set_connector c (after (connect x0))
             (record (Call_connect c) st)))).
Proof.
  intros mc c x0 Hx0 Hav Hcr. step_methods. fold mc. fold c. fold x0.
  rewrite Hx0, Hav. simpl. fold x0. rewrite Hcr. reflexivity.
Qed.


(** [_open] extends the trace by the calls it makes. *)
Lemma open_extends_trace (st : State C R) (self : ref) :
  trace (snd (MaintainedConnection._open self st))
  = trace st ++ calls_since st (snd (MaintainedConnection._open self st)).
Proof.
  assert (G : exists l, trace (snd (MaintainedConnection._open self st))
                        = trace st ++ l).
  { unfold MaintainedConnection._open. step_methods.
    destruct (_ && _); simpl;
      [|exists []; rewrite app_nil_r; reflexivity].
    destruct (raised _) as [e|]; simpl.
    - destruct (is_ConnectorError e); simpl;
        [destruct (isEnabledFor_DEBUG _); simpl|];
        rewrite <- ?app_assoc; eexists; reflexivity.
    - rewrite <- ?app_assoc; eexists; reflexivity. }
  destruct G as [l G]. rewrite (calls_since_app _ _ _ G). exact G.
Qed.












(** *** The loop and the stop flag *)

Ltac solve_same :=
  unfold same_but_stop_events in *; simpl;
  repeat match goal with H : _ /\ _ |- _ => destruct H end;
  repeat (split || intro); unfold upd;
  try congruence;
  repeat match goal with
         | |- context [Nat.eqb ?a ?b] => destruct (Nat.eqb a b)
         end;
  simpl; try congruence;
  match goal with
  | H : forall r, _ /\ _ /\ _ |- _ => apply H
  end.

Lemma same_refl (s : State C R) : same_but_stop_events s s.
Proof.
  unfold same_but_stop_events. repeat (split || intro).
Qed.

Lemma same_request_stop (l : ref) (s : State C R) :
  same_but_stop_events s (request_stop l s).
Proof.
  unfold same_but_stop_events, request_stop. simpl.
  repeat (split || intro); unfold upd;
    destruct (Nat.eqb r l) eqn:E; try reflexivity;
    apply Nat.eqb_eq in E; subst; reflexivity.
Qed.

Lemma same_record (e : Effect) (s1 s2 : State C R) :
  same_but_stop_events s1 s2 ->
  same_but_stop_events (record e s1) (record e s2).
Proof. intros S. solve_same. Qed.

Lemma same_set_connector (c : ref) (v : C) (s1 s2 : State C R) :
  same_but_stop_events s1 s2 ->
  same_but_stop_events (set_connector c v s1) (set_connector c v s2).
Proof. intros S. solve_same. Qed.

Lemma same_set_maintained_connection (r : ref)
    (v : MaintainedConnection_state R) (s1 s2 : State C R) :
  same_but_stop_events s1 s2 ->
  same_but_stop_events (set_maintained_connection r v s1)
                       (set_maintained_connection r v s2).
Proof. intros S. solve_same. Qed.

Lemma same_forward (c : ref) (ks : list EventKind) (s1 s2 : State C R) :
  same_but_stop_events s1 s2 ->
  same_but_stop_events (forward c ks s1) (forward c ks s2).
Proof.
  intros S. unfold forward, push_events.
  assert (E : listeners s1 c = listeners s2 c) by apply S.
  rewrite E. solve_same.
Qed.

Lemma blind_ret (A : Type) (a : A) : blind_to_stop_events (ret (C:=C) (R:=R) a).
Proof. intros s1 s2 S. auto. Qed.

Lemma blind_bind (A B : Type) (m : M C R A) (k : A -> M C R B) :
  blind_to_stop_events m ->
  (forall a, blind_to_stop_events (k a)) ->
  blind_to_stop_events (bind m k).
Proof.
  intros Hm Hk s1 s2 S. unfold bind.
  destruct (Hm s1 s2 S) as [E S'].
  destruct (m s1) as [[a|e] t1], (m s2) as [[a'|e'] t2]; simpl in *;
    try discriminate.
  - injection E as ->. apply Hk. exact S'.
  - injection E as ->. auto.
Qed.

Lemma blind_try_except (A : Type) (m : M C R A) (caught : exn -> bool)
    (handler : exn -> M C R A) :
  blind_to_stop_events m ->
  (forall e, blind_to_stop_events (handler e)) ->
  blind_to_stop_events (try_except m caught handler).
Proof.
  intros Hm Hh s1 s2 S. unfold try_except.
  destruct (Hm s1 s2 S) as [E S'].
  destruct (m s1) as [[a|e] t1], (m s2) as [[a'|e'] t2]; simpl in *;
    try discriminate.
  - auto.
  - injection E as ->. destruct (caught e'); [apply Hh; exact S' | auto].
Qed.

Lemma blind_get (A : Type) (k : State C R -> M C R A) :
  (forall s1 s2,
      same_but_stop_events s1 s2 ->
      fst (k s1 s1) = fst (k s2 s2) /\
      same_but_stop_events (snd (k s1 s1)) (snd (k s2 s2))) ->
  blind_to_stop_events (bind get_state k).
Proof.
  intros Hk s1 s2 S. unfold bind, get_state. apply Hk. exact S.
Qed.

Lemma blind_log (r : LogRecord) : blind_to_stop_events (log (C:=C) (R:=R) r).
Proof.
  intros s1 s2 S. unfold log, modify. simpl. split; [reflexivity|].
  apply same_record. exact S.
Qed.

Lemma blind_call (c : ref) (f : C -> Outcome C) (e : Effect) :
  blind_to_stop_events
    (fun st : State C R =>
       finish (f (connectors st c))
         (forward c (fired (f (connectors st c)))
            (set_connector c (after (f (connectors st c))) (record e st)))).
Proof.
  intros s1 s2 S.
  assert (E : connectors s1 c = connectors s2 c) by apply S.
  rewrite E. unfold finish.
  assert (S' : same_but_stop_events
     (forward c (fired (f (connectors s2 c)))
            (set_connector c (after (f (connectors s2 c))) (record e s1)))
     (forward c (fired (f (connectors s2 c)))
            (set_connector c (after (f (connectors s2 c))) (record e s2)))).
  { apply same_forward, same_set_connector, same_record, S. }
  destruct (raised (f (connectors s2 c))); simpl; auto.
Qed.

Lemma blind_open (self : ref) :
  blind_to_stop_events (MaintainedConnection._open (C:=C) (R:=R) self).
Proof.
  unfold MaintainedConnection._open. apply blind_get. intros s1 s2 S.
  assert (Em : maintained_connections s1 self = maintained_connections s2 self)
    by apply S.
  assert (Ec : forall c, connectors s1 c = connectors s2 c) by apply S.
  rewrite Em, Ec.
  match goal with
  | |- fst (?m s1) = _ /\ _ => assert (B : blind_to_stop_events m)
  end.
  { apply blind_bind; [|intros; apply blind_ret].
    destruct (_ && _); [|apply blind_ret].
    apply blind_try_except.
    - apply blind_bind; [|intros; apply blind_log].
      unfold call_connect. apply blind_call.
    - intros e. destruct (isEnabledFor_DEBUG _); [|apply blind_ret].
      apply blind_bind; intros; apply blind_log. }
  apply B. exact S.
Qed.

Lemma blind_close (self : ref) :
  blind_to_stop_events (MaintainedConnection._close (C:=C) (R:=R) self).
Proof.
  unfold MaintainedConnection._close. apply blind_get. intros s1 s2 S.
  assert (Em : maintained_connections s1 self = maintained_connections s2 self)
    by apply S.
  assert (Ec : forall c, connectors s1 c = connectors s2 c) by apply S.
  rewrite Em, Ec.
  match goal with
  | |- fst (?m s1) = _ /\ _ => assert (B : blind_to_stop_events m)
  end.
  { apply blind_bind; [unfold call_disconnect; apply blind_call|].
    intros _. apply blind_bind; [|intros; apply blind_ret].
    destruct (connected _); [apply blind_log | apply blind_ret]. }
  apply B. exact S.
Qed.

Lemma blind_connected_loop (self : ref) :
  blind_to_stop_events
    (MaintainedConnectionLoop._connected_loop (C:=C) (R:=R) self).
Proof.
  unfold MaintainedConnectionLoop._connected_loop. apply blind_get.
  intros s1 s2 S.
  assert (El : ml_maintained_connection (loops s1 self)
               = ml_maintained_connection (loops s2 self) /\
               ml_loop (loops s1 self) = ml_loop (loops s2 self) /\
               ml_worker_active (loops s1 self)
               = ml_worker_active (loops s2 self)) by apply S.
  destruct El as (E1 & E2 & _).
  assert (Em : forall r, maintained_connections s1 r = maintained_connections s2 r)
    by apply S.
  rewrite E1, E2, Em.
  destruct (ml_loop (loops s2 self)) as [cb|]; [|auto].
  unfold call_callback. apply blind_call. exact S.
Qed.

Lemma blind_connected_body (self : ref) :
  blind_to_stop_events
    (MaintainedConnectionLoop.connected_body (C:=C) (R:=R) self).
Proof.
  intros s1 s2 S. unfold MaintainedConnectionLoop.connected_body.
  destruct (blind_connected_loop self S) as [E S'].
  destruct (MaintainedConnectionLoop._connected_loop self s1) as [[a|e] t1],
           (MaintainedConnectionLoop._connected_loop self s2) as [[a'|e'] t2];
    simpl in *; try discriminate.
  - auto.
  - injection E as ->.
    assert (El : ml_maintained_connection (loops t1 self)
                 = ml_maintained_connection (loops t2 self)) by apply S'.
    rewrite El.
    destruct (blind_close (ml_maintained_connection (loops t2 self)) S')
      as [E' S''].
    destruct (MaintainedConnection._close _ t1) as [[b|e1] u1],
             (MaintainedConnection._close _ t2) as [[b'|e2] u2];
      simpl in *; try discriminate; auto.
    injection E' as ->. auto.
Qed.

Lemma blind_while_connected (self : ref) (fuel : nat) :
  forall s1 s2 : State C R,
    same_but_stop_events s1 s2 ->
    same_outcome (MaintainedConnectionLoop.while_connected fuel self s1)
                 (MaintainedConnectionLoop.while_connected fuel self s2).
Proof.
  induction fuel as [|fuel IH]; intros s1 s2 S;
    simpl MaintainedConnectionLoop.while_connected;
    assert (El : ml_maintained_connection (loops s1 self)
                 = ml_maintained_connection (loops s2 self)) by apply S;
    assert (Em : forall r,
               maintained_connections s1 r = maintained_connections s2 r)
      by apply S;
    assert (Ec : forall c, connectors s1 c = connectors s2 c) by apply S;
    rewrite El, Em, Ec;
    destruct (connected _); simpl; auto.
  destruct (blind_connected_body self S) as [E S'].
  destruct (MaintainedConnectionLoop.connected_body self s1) as [[a|e] t1],
           (MaintainedConnectionLoop.connected_body self s2) as [[a'|e'] t2];
    simpl in *; try discriminate.
  - apply IH. exact S'.
  - auto.
Qed.

Lemma blind_final_wait (self : ref) (now : Z) :
  blind_to_stop_events
    (MaintainedConnectionLoop.final_wait (C:=C) (R:=R) self now).
Proof.
  intros s1 s2 S.
  unfold MaintainedConnectionLoop.final_wait,
    MaintainedConnection.call_retry_strategy, stop_event_wait,
    bind, get_state, ret.
  assert (El : ml_maintained_connection (loops s1 self)
               = ml_maintained_connection (loops s2 self)) by apply S.
  assert (Em : forall r,
             maintained_connections s1 r = maintained_connections s2 r)
    by apply S.
  rewrite El, Em.
  destruct (evaluate _ now) as [delay rs]. simpl.
  split; [reflexivity|].
  apply same_record, same_set_maintained_connection, S.
Qed.

Lemma blind_loop (fuel : nat) (self : ref) (now : Z) (s1 s2 : State C R) :
  same_but_stop_events s1 s2 ->
  same_outcome (MaintainedConnectionLoop.loop fuel self now s1)
               (MaintainedConnectionLoop.loop fuel self now s2).
Proof.
  intros S. unfold MaintainedConnectionLoop.loop.
  assert (El : ml_maintained_connection (loops s1 self)
               = ml_maintained_connection (loops s2 self)) by apply S.
  rewrite El.
  destruct (blind_open (ml_maintained_connection (loops s2 self)) S)
    as [E S'].
  destruct (MaintainedConnection._open _ s1) as [[b|e] t1],
           (MaintainedConnection._open _ s2) as [[b'|e'] t2];
    simpl in *; try discriminate.
  - pose proof (blind_while_connected self fuel S') as W.
    destruct (MaintainedConnectionLoop.while_connected fuel self t1)
      as [[r1 u1]|],
      (MaintainedConnectionLoop.while_connected fuel self t2)
      as [[r2 u2]|]; simpl in W; try contradiction; [|exact I].
    destruct W as [-> S''].
    destruct (blind_final_wait self now S'') as [E' S3].
    destruct (MaintainedConnectionLoop.final_wait self now u1) as [[a|e1] v1],
             (MaintainedConnectionLoop.final_wait self now u2) as [[a'|e2] v2];
      simpl in *; try discriminate; [auto|].
    injection E' as ->. auto.
  - injection E as ->.
    destruct (blind_final_wait self now S') as [E' S3].
    destruct (MaintainedConnectionLoop.final_wait self now t1) as [[a|e1] v1],
             (MaintainedConnectionLoop.final_wait self now t2) as [[a'|e2] v2];
      simpl in *; try discriminate; [auto|].
    injection E' as ->. auto.
Qed.

(** The connected loop ends normally only on a connector that is not
    connected. *)
Lemma while_connected_exit (self : ref) (fuel : nat) :
  forall s s' : State C R,
    MaintainedConnectionLoop.while_connected fuel self s = Some (Ok tt, s') ->
    connected (connectors s' (connector_of s' self)) = false.
Proof.
  induction fuel as [|fuel IH]; intros s s';
    simpl MaintainedConnectionLoop.while_connected;
    fold (connector_of s self);
    destruct (connected (connectors s (connector_of s self))) eqn:Ec;
    try discriminate;
    try (intros E; injection E as <-; exact Ec).
  destruct (MaintainedConnectionLoop.connected_body self s) as [[a|e] t].
  - apply IH.
  - discriminate.
Qed.

Lemma final_wait_keeps_connector (self : ref) (now : Z) (s : State C R) :
  let s' := snd (MaintainedConnectionLoop.final_wait self now s) in
  connectors s' = connectors s /\ connector_of s' self = connector_of s self.
Proof.
  unfold MaintainedConnectionLoop.final_wait,
    MaintainedConnection.call_retry_strategy, stop_event_wait,
    bind, get_state, ret, connector_of.
  destruct (evaluate _ now) as [delay rs]. simpl.
  rewrite upd_same. simpl. auto.
Qed.

(** C3, as the code has it: [loop] does not consult the cancellation
    flag.  It makes the same calls and gives the same result whether or
    not [stop()] has been requested; its inner loop makes no pass on a
    connector that is not connected and goes on for as long as the
    connector is connected; when [loop] returns without an exception,
    the connector is not connected. *)
Theorem loop_runs_while_connected_whatever_stop
    (fuel : nat) (l l' : ref) (now : Z) (st : State C R) :
  same_outcome (MaintainedConnectionLoop.loop fuel l now st)
               (MaintainedConnectionLoop.loop fuel l now (request_stop l' st))
  /\
  (if connected (connectors st (connector_of st l))
   then True
   else MaintainedConnectionLoop.while_connected fuel l st = Some (Ok tt, st))
  /\
  match MaintainedConnectionLoop.loop fuel l now st with
  | Some (Ok _, st') => connected (connectors st' (connector_of st' l)) = false
  | _ => True
  end.
Proof.
  split; [apply blind_loop, same_request_stop|]. split.
  - destruct (connected (connectors st (connector_of st l))) eqn:Ec;
      [exact I|].
    unfold connector_of in Ec.
    destruct fuel; simpl; rewrite Ec; reflexivity.
  - unfold MaintainedConnectionLoop.loop.
    destruct (MaintainedConnection._open _ st) as [[b|e] s1].
    + destruct (MaintainedConnectionLoop.while_connected fuel l s1)
        as [[[[]|e] s2]|] eqn:Ew; try exact I.
      * pose proof (while_connected_exit _ _ _ Ew) as Hx.
        destruct (final_wait_keeps_connector l now s2) as [E1 E2].
        destruct (MaintainedConnectionLoop.final_wait l now s2)
          as [[a|e] s3]; simpl in *; [|exact I].
        rewrite E1, E2. exact Hx.
      * destruct (MaintainedConnectionLoop.final_wait l now s2)
          as [[a|e'] s3]; exact I.
    + destruct (MaintainedConnectionLoop.final_wait l now s1)
        as [[a|e'] s3]; exact I.
Qed.
End MaintainedConnectionLoop_properties.

Section MaintainedConnectionLoop_examples.
Import Fixture.

(** C3 fails as stated: [stop()] has been requested while the
    connector is connected, yet the inner loop goes on and calls the
    connected-callback three more times, until the connection drops by
    itself; and a [loop] entered after the request still opens the
    connector and calls the callback. *)
Lemma loop_calls_back_after_stop_request :
  let st := request_stop 1 (one_loop (live [ReadOk; ReadOk])) in
  let st0 := request_stop 1 (one_loop (reachable [ReadOk; ReadOk])) in
  ml_stop_event (loops st 1) = true /\
  connected (connectors st 0) = true /\
  ml_stop_event (loops st0 1) = true /\
  (exists st',
      MaintainedConnectionLoop.loop 5 1 100%Z st = Some (Ok tt, st') /\
      count (is_callback 1) (calls_since st st') = 3 /\
      calls_since st st' =
        [Call_connected_loop 1; Call_connected_loop 1;
         Call_connected_loop 1; Call_wait 1 0]) /\
  (exists st',
      MaintainedConnectionLoop.loop 5 1 100%Z st0 = Some (Ok tt, st') /\
      count (is_callback 1) (calls_since st0 st') = 3 /\
      calls_since st0 st' =
        [Call_connect 0; Call_log (info_device_connected "dev1");
         Call_connected_loop 1; Call_connected_loop 1;
         Call_connected_loop 1; Call_wait 1 0]).
Proof.
  repeat split; try reflexivity;
    (eexists; split; [vm_compute; reflexivity|];
     split; vm_compute; reflexivity).
Qed.


End MaintainedConnectionLoop_examples.

(** ** Dictionaries *)

Section PyDict_properties.
Variable V : Type.

Lemma get_del_same (k : string) (d : PyDict.dict V) :
  PyDict.get k (PyDict.del k d) = None.
Proof.
  induction d as [|[k' v] d IH]; simpl; [reflexivity|].
  destruct (String.eqb k k') eqn:E; [exact IH|].
  simpl. rewrite E. exact IH.
Qed.

Lemma get_del_other (k k' : string) (d : PyDict.dict V) :
  k' <> k -> PyDict.get k' (PyDict.del k d) = PyDict.get k' d.
Proof.
  intros N. induction d as [|[k0 v] d IH]; simpl; [reflexivity|].
  destruct (String.eqb k k0) eqn:E.
  - apply String.eqb_eq in E. subst k0.
    apply String.eqb_neq in N. rewrite N. exact IH.
  - simpl. destruct (String.eqb k' k0); [reflexivity | exact IH].
Qed.

Lemma get_set_same (k : string) (v : V) (d : PyDict.dict V) :
  PyDict.get k (PyDict.set k v d) = Some v.
Proof.
  induction d as [|[k' v'] d IH]; simpl.
  - rewrite String.eqb_refl. reflexivity.
  - destruct (String.eqb k k') eqn:E; simpl.
    + rewrite String.eqb_refl. reflexivity.
    + rewrite E. exact IH.
Qed.

Lemma get_set_other (k k' : string) (v : V) (d : PyDict.dict V) :
  k' <> k -> PyDict.get k' (PyDict.set k v d) = PyDict.get k' d.
Proof.
  intros N. apply String.eqb_neq in N.
  induction d as [|[k0 v0] d IH]; simpl.
  - rewrite N. reflexivity.
  - destruct (String.eqb k k0) eqn:E; simpl.
    + apply String.eqb_eq in E. subst k0. rewrite N. reflexivity.
    + destruct (String.eqb k' k0); [reflexivity | exact IH].
Qed.

End PyDict_properties.

(** ** ConnectionManager *)

Ltac unfold_store :=
  unfold forward, push_events, set_loop, record, set_connector,
    set_maintained_connection, set_next_ref, set_connections,
    add_listener in *.

Section ConnectionManager_properties.
Context {C : Type} `{Connector C}.

(** What the stop of a worker leaves behind, when the disconnect it
    issues returns and disconnects. *)
Lemma stop_runs (R : Type) (st : State C R) (l : ref) :
  let c := connector_of st l in
  raised (disconnect (connectors st c)) = None ->
  connected (after (disconnect (connectors st c))) = false ->
  exists st',
    AsyncLoop.stop l st = (Ok tt, st') /\
    ml_stop_event (loops st' l) = true /\
    ml_worker_active (loops st' l) = false /\
    ml_maintained_connection (loops st' l)
    = ml_maintained_connection (loops st l) /\
    (forall r, r <> l -> loops st' r = loops st r) /\
    maintained_connections st' = maintained_connections st /\
    connected (connectors st' c) = false /\
    (forall c', c' <> c -> connectors st' c' = connectors st c') /\
    _connections st' = _connections st /\
    next_ref st' = next_ref st /\
    retry_period st' = retry_period st /\
    module_logger st' = module_logger st /\
    trace st' = trace st ++ Call_stop l ::
                  (if connected (connectors st c)
                   then [Call_disconnect c] else []).
Proof.
  intros c Hdr Hdc. unfold connector_of in c.
  unfold AsyncLoop.stop, AsyncLoop.with_flags. step_methods. unfold_store.
  simpl. rewrite upd_same. simpl. fold c.
  destruct (connected (connectors st c)) eqn:Ec.
  - simpl. fold c. rewrite Hdr. simpl. eexists. split; [reflexivity|].
    simpl. rewrite !upd_same. simpl.
    repeat split; auto.
    + intros r N. rewrite !upd_other by exact N. reflexivity.
    + intros c' N. rewrite upd_other by exact N. reflexivity.
    + rewrite <- app_assoc. reflexivity.
  - simpl. eexists. split; [reflexivity|].
    simpl. rewrite !upd_same. simpl.
    repeat split; auto.
    intros r N. rewrite !upd_other by exact N. reflexivity.
Qed.

(** C4: [available] with the connector instance the record of the key
    already holds returns at once.  The store is left as it was: the
    registry is unchanged, no maintained connection and no worker is
    created, the present worker is not touched and no call is made. *)
Theorem available_same_connector_is_noop
    (st : State C PeriodRetryStrategy) (resource : string)
    (connector previous : ref) :
  PyDict.get resource (_connections st) = Some previous ->
  mc_connector (maintained_connections st previous) = connector ->
  ConnectionManager.available resource connector st = (Ok tt, st).
Proof.
  intros Hget Hsame. unfold ConnectionManager.available, bind, get_state.
  rewrite Hget, Hsame, Nat.eqb_refl. reflexivity.
Qed.

(** C5: [unavailable] on a key with a record stops the worker of the
    record, leaves its connector disconnected and removes the key from
    the registry, the other keys staying as they are; on a key without
    a record it does nothing and raises nothing. *)
Theorem unavailable_stops_worker_and_removes_record
    (st : State C PeriodRetryStrategy) (resource : string) :
  (PyDict.get resource (_connections st) = None ->
   ConnectionManager.unavailable resource st = (Ok tt, st)) /\
  (forall connection l : ref,
      PyDict.get resource (_connections st) = Some connection ->
      mc_loop (maintained_connections st connection) = Some l ->
      ml_maintained_connection (loops st l) = connection ->
      let c := mc_connector (maintained_connections st connection) in
      raised (disconnect (connectors st c)) = None ->
      connected (after (disconnect (connectors st c))) = false ->
      exists st',
        ConnectionManager.unavailable resource st = (Ok tt, st') /\
        ml_stop_event (loops st' l) = true /\
        ml_worker_active (loops st' l) = false /\
        connected (connectors st' c) = false /\
        PyDict.get resource (_connections st') = None /\
        (forall k, k <> resource ->
                   PyDict.get k (_connections st')
                   = PyDict.get k (_connections st))).
Proof.
  split.
  - intros Hget. unfold ConnectionManager.unavailable, bind, get_state.
    rewrite Hget. reflexivity.
  - intros connection l Hget Hloop Hback c Hdr Hdc.
    assert (Ec : connector_of st l = c).
    { unfold connector_of. rewrite Hback. reflexivity. }
    destruct (@stop_runs _ st l) as
      (s1 & Hs & Hflag & Hact & _ & _ & Hmc & Hconn & _ & Hd & _);
      rewrite ?Ec; auto.
    unfold ConnectionManager.unavailable, ConnectionManager.loop_stop,
      ConnectionManager.set_loop_attr, bind, get_state, modify.
    rewrite Hget, Hloop, Hs. eexists. split; [reflexivity|].
    unfold_store. cbn -[upd]. rewrite Hd.
    repeat split; auto using get_del_same, get_del_other.
    rewrite <- Ec. exact Hconn.
Qed.


Ltac run_store :=
  lazy beta iota zeta delta
    [ConnectionManager.unavailable ConnectionManager.available
     ConnectionManager.install ConnectionManager.store_new
     ConnectionManager._new_maintained_connection
     ConnectionManager.loop_stop ConnectionManager.loop_start
     ConnectionManager.set_loop_attr ConnectionManager.Method
     AsyncLoop.stop AsyncLoop.start AsyncLoop.with_flags
     MaintainedConnection.init MaintainedConnectionLoop.init
     bind ret raise modify get_state fst snd
     forward push_events set_loop record set_connector
     set_maintained_connection set_next_ref set_connections add_listener
     connectors listeners maintained_connections loops next_ref
     _connections retry_period module_logger events trace
     mc_resource mc_connector mc_retry_strategy mc_logger mc_loop
     ml_maintained_connection ml_loop ml_stop_event ml_worker_active].

(** What [store_new] builds: a maintained connection at the next free
    reference, its loop at the one after, and the record in the
    registry. *)
Lemma store_new_runs (st : State C PeriodRetryStrategy) (resource : string)
    (connector : ref) :
  let r := ConnectionManager.store_new resource connector st in
  let new_mc := next_ref st in
  let new_l := S (next_ref st) in
  fst r = Ok new_mc /\
  _connections (snd r) = PyDict.set resource new_mc (_connections st) /\
  maintained_connections (snd r) new_mc =
    {| mc_resource := resource;
       mc_connector := connector;
       mc_retry_strategy :=
         {| period := retry_period st; last_attempt := None |};
       mc_logger := module_logger st;
       mc_loop := Some new_l |} /\
  loops (snd r) new_l =
    {| ml_maintained_connection := new_mc;
       ml_loop := None;
       ml_stop_event := false;
       ml_worker_active := false |} /\
  (forall l, l <> new_l -> loops (snd r) l = loops st l) /\
  connectors (snd r) = connectors st /\
  next_ref (snd r) = S (S (next_ref st)) /\
  trace (snd r) = trace st.
Proof.
  intros r new_mc new_l. subst r new_mc new_l.
  repeat split; run_store; rewrite ?upd_same; try reflexivity.
  intros l N. rewrite upd_other by exact N. reflexivity.
Qed.

(** What the start of a worker changes. *)
Lemma start_runs (R : Type) (st : State C R) (l : ref) :
  let r := AsyncLoop.start (R:=R) l st in
  fst r = Ok tt /\
  ml_worker_active (loops (snd r) l) = true /\
  (forall l', l' <> l -> loops (snd r) l' = loops st l') /\
  maintained_connections (snd r) = maintained_connections st /\
  connectors (snd r) = connectors st /\
  _connections (snd r) = _connections st /\
  next_ref (snd r) = next_ref st /\
  trace (snd r) = trace st ++ [Call_start l].
Proof.
  intros r. subst r.
  repeat split; run_store; rewrite ?upd_same; try reflexivity.
  intros l' N. rewrite upd_other by exact N. reflexivity.
Qed.

(** C2: [available] with another connector for a key that has a record
    first stops the worker of that record; only when the stop has
    returned is the new record created and stored, and only then is its
    worker started.  In none of the states in between do both workers
    run. *)
Theorem available_stops_old_worker_before_new
    (st : State C PeriodRetryStrategy) (resource : string)
    (connector previous old_l : ref) :
  PyDict.get resource (_connections st) = Some previous ->
  mc_connector (maintained_connections st previous) <> connector ->
  mc_loop (maintained_connections st previous) = Some old_l ->
  ml_maintained_connection (loops st old_l) = previous ->
  old_l < next_ref st ->
  let c1 := mc_connector (maintained_connections st previous) in
  raised (disconnect (connectors st c1)) = None ->
  connected (after (disconnect (connectors st c1))) = false ->
  let new_mc := next_ref st in
  let new_l := S (next_ref st) in
  exists st1 st2 st3,
    ConnectionManager.loop_stop previous st = (Ok tt, st1) /\
    ConnectionManager.store_new resource connector st1 = (Ok new_mc, st2) /\
    ConnectionManager.loop_start new_mc st2 = (Ok tt, st3) /\
    ConnectionManager.available resource connector st = (Ok tt, st3) /\
    (worker_runs st new_l = false /\
     worker_runs st1 old_l = false /\
     worker_runs st1 new_l = false /\
     ml_stop_event (loops st1 old_l) = true /\
     connected (connectors st1 c1) = false /\
     PyDict.get resource (_connections st1) = Some previous) /\
    (PyDict.get resource (_connections st2) = Some new_mc /\
     mc_connector (maintained_connections st2 new_mc) = connector /\
     mc_loop (maintained_connections st2 new_mc) = Some new_l /\
     worker_runs st2 old_l = false /\
     worker_runs st2 new_l = false) /\
    (PyDict.get resource (_connections st3) = Some new_mc /\
     worker_runs st3 old_l = false /\
     worker_runs st3 new_l = true) /\
    calls_since st st3 =
      Call_stop old_l ::
      (if connected (connectors st c1) then [Call_disconnect c1] else [])
      ++ [Call_start new_l].
Proof.
  intros Hget Hdiff Hloop Hback Hold c1 Hdr Hdc new_mc new_l.
  assert (Ec : connector_of st old_l = c1).
  { unfold connector_of. rewrite Hback. reflexivity. }
  destruct (@stop_runs _ st old_l) as
    (st1 & Hs & Hflag & Hact & _ & Hlo & Hmc & Hconn & _ & Hd & Hn & Hp & Hg
     & Ht);
    rewrite ?Ec; auto.
  rewrite Ec in Hconn, Ht.
  assert (Hstop : ConnectionManager.loop_stop previous st = (Ok tt, st1)).
  { unfold ConnectionManager.loop_stop, bind, get_state.
    rewrite Hloop. exact Hs. }
  assert (Nl : old_l <> new_l) by (unfold new_l; lia).
  destruct (store_new_runs st1 resource connector)
    as (F1 & F2 & F3 & F4 & F5 & F6 & F7 & F8).
  rewrite Hn in F1, F2, F3, F4, F5, F7. fold new_mc new_l in F1, F2, F3, F4, F5.
  destruct (ConnectionManager.store_new resource connector st1)
    as [r2 st2] eqn:Hstore.
  simpl in F1, F2, F3, F4, F5, F6, F7, F8. subst r2.
  destruct (start_runs st2 new_l) as (G1 & G2 & G3 & G4 & G5 & G6 & G7 & G8).
  assert (Hstart : ConnectionManager.loop_start new_mc st2
                   = AsyncLoop.start new_l st2).
  { unfold ConnectionManager.loop_start, bind, get_state.
    rewrite F3. reflexivity. }
  destruct (AsyncLoop.start new_l st2) as [r3 st3] eqn:Hst.
  simpl in G1, G2, G3, G4, G5, G6, G7, G8. subst r3.
  exists st1, st2, st3.
  split; [exact Hstop|]. split; [exact Hstore|]. split; [exact Hstart|].
  split.
  { unfold ConnectionManager.available, bind at 1, get_state.
    rewrite Hget.
    destruct (Nat.eqb _ connector) eqn:E;
      [apply Nat.eqb_eq in E; contradiction|].
    unfold bind. rewrite Hstop.
    unfold ConnectionManager.install, bind. rewrite Hstore. exact Hstart. }
  assert (Wnew : forall s : State C PeriodRetryStrategy,
             next_ref s = next_ref st -> worker_runs s new_l = false).
  { intros s E. unfold worker_runs. rewrite E.
    replace (new_l <? next_ref st) with false; [reflexivity|].
    symmetry. apply Nat.ltb_ge. unfold new_l. lia. }
  assert (Wold : forall s : State C PeriodRetryStrategy,
             ml_worker_active (loops s old_l) = false ->
                           worker_runs s old_l = false).
  { intros s E. unfold worker_runs. rewrite E. apply andb_false_r. }
  split.
  { repeat split; auto. rewrite Hd. exact Hget. }
  split.
  { repeat split; auto.
    - rewrite F2. apply get_set_same.
    - rewrite F3. reflexivity.
    - rewrite F3. reflexivity.
    - apply Wold. rewrite (F5 _ Nl). exact Hact.
    - unfold worker_runs. change new_l with (S new_mc). rewrite F4.
      apply andb_false_r. }
  split.
  { repeat split.
    - rewrite G6, F2. apply get_set_same.
    - apply Wold. rewrite (G3 _ Nl), (F5 _ Nl). exact Hact.
    - unfold worker_runs. rewrite G2, G7, F7.
      replace (new_l <? S (S (next_ref st))) with true; [reflexivity|].
      symmetry. apply Nat.ltb_lt. unfold new_l. lia. }
  apply calls_since_app. rewrite G8, F8, Ht, <- app_assoc. reflexivity.
Qed.














End ConnectionManager_properties.

Section ConnectionManager_examples.
Import Fixture.


(** C4 on a manager that knows "A" with connector 0. *)
Lemma available_same_connector_is_noop_witness :
  let st := two_resources (reachable []) (reachable []) in
  ConnectionManager.available "A" 0 st = (Ok tt, st).
Proof.
  intros st.
  exact (@available_same_connector_is_noop TestConnector _ st "A" 0 0
           eq_refl eq_refl).
Defined.

(** C5 on a manager that knows "A" and "B" and not "C". *)
Lemma unavailable_stops_worker_and_removes_record_witness :
  let st := two_resources (reachable []) (reachable []) in
  ConnectionManager.unavailable "C" st = (Ok tt, st) /\
  exists st',
    ConnectionManager.unavailable "A" st = (Ok tt, st') /\
    ml_stop_event (loops st' 1) = true /\
    ml_worker_active (loops st' 1) = false /\
    connected (connectors st' 0) = false /\
    PyDict.get "A" (_connections st') = None /\
    (forall k, k <> "A"%string ->
               PyDict.get k (_connections st')
               = PyDict.get k (_connections st)).
Proof.
  intros st.
  destruct (@unavailable_stops_worker_and_removes_record TestConnector _
              st "A") as [_ Hknown].
  destruct (@unavailable_stops_worker_and_removes_record TestConnector _
              st "C") as [Hunknown _].
  split.
  - exact (Hunknown eq_refl).
  - exact (Hknown 0 1 eq_refl eq_refl eq_refl eq_refl eq_refl).
Defined.

(** C2 on a manager that knows "A" with connector 0 and is told of
    connector 1 for "A". *)
Lemma available_stops_old_worker_before_new_witness :
  let st := two_resources (reachable []) (reachable []) in
  exists st1 st2 st3,
    ConnectionManager.loop_stop 0 st = (Ok tt, st1) /\
    ConnectionManager.store_new "A" 1 st1 = (Ok 4, st2) /\
    ConnectionManager.loop_start 4 st2 = (Ok tt, st3) /\
    ConnectionManager.available "A" 1 st = (Ok tt, st3) /\
    (worker_runs st 5 = false /\
     worker_runs st1 1 = false /\
     worker_runs st1 5 = false /\
     ml_stop_event (loops st1 1) = true /\
     connected (connectors st1 0) = false /\
     PyDict.get "A" (_connections st1) = Some 0) /\
    (PyDict.get "A" (_connections st2) = Some 4 /\
     mc_connector (maintained_connections st2 4) = 1 /\
     mc_loop (maintained_connections st2 4) = Some 5 /\
     worker_runs st2 1 = false /\
     worker_runs st2 5 = false) /\
    (PyDict.get "A" (_connections st3) = Some 4 /\
     worker_runs st3 1 = false /\
     worker_runs st3 5 = true) /\
    calls_since st st3 = [Call_stop 1; Call_start 5].
Proof.
  intros st.
  assert (Hdiff : mc_connector (maintained_connections st 0) <> 1)
    by (vm_compute; discriminate).
  assert (Hold : 1 < next_ref st) by (vm_compute; lia).
  exact (@available_stops_old_worker_before_new TestConnector _ st "A" 1 0 1
           eq_refl Hdiff eq_refl eq_refl Hold eq_refl eq_refl).
Defined.
End ConnectionManager_examples.

(** ** TCPServerDiscovery *)

Section TCPServerDiscovery_properties.
Import TCPServerDiscovery.

Lemma drain_appends (queue events : list ResourceEvent) :
  drain queue events = events ++ queue.
Proof.
  revert events. induction queue as [|e rest IH]; intros events; simpl.
  - rewrite app_nil_r. reflexivity.
  - rewrite IH, <- app_assoc. reflexivity.
Qed.

(** What [update] hands to the listeners: the queued events, in order,
    or nothing at all when the queue is empty. *)
Lemma update_fires_queue (self : Discovery) :
  fired_batches (update self) =
    fired_batches self ++
    match event_queue self with
    | [] => []
    | _ :: _ => [event_queue self]
    end.
Proof.
  unfold update. destruct (event_queue self) as [|e q] eqn:E; simpl.
  - rewrite app_nil_r. reflexivity.
  - rewrite drain_appends. reflexivity.
Qed.

(** C10: a notification of [add_service] or [remove_service] enqueues
    one event when zeroconf returns info for the service type and name,
    and nothing is logged; when zeroconf returns none it enqueues no
    event and logs a warning, and [update] afterwards fires what it
    would have fired without the notification. *)
Theorem publish_enqueues_iff_info (zeroconf : Zeroconf)
    (type name : string) (self : Discovery) (event : EventClass) :
  let notify :=
    match event with
    | ResourceAvailableEvent => add_service zeroconf type name
    | ResourceUnavailableEvent => remove_service zeroconf type name
    end in
  notify self = _publish event zeroconf type name self /\
  match zeroconf type name with
  | Some i =>
      event_queue (notify self) =
        event_queue self
        ++ [{| event_class := event; resource := endpoint_of i |}] /\
      logged (notify self) = logged self /\
      fired_batches (notify self) = fired_batches self
  | None =>
      event_queue (notify self) = event_queue self /\
      logged (notify self) =
        logged self ++ [warn_no_info_for_service name type] /\
      fired_batches (notify self) = fired_batches self /\
      fired_batches (update (notify self)) = fired_batches (update self) /\
      event_queue (update (notify self)) = event_queue (update self)
  end.
Proof.
  intros notify.
  assert (E : notify self = _publish event zeroconf type name self)
    by (subst notify; destruct event; reflexivity).
  split; [exact E|]. rewrite E. clear E notify.
  unfold _publish, resource_for_service.
  destruct (zeroconf type name) as [i|]; simpl.
  - auto.
  - repeat split; unfold update; simpl;
      destruct (event_queue self) eqn:E; simpl; rewrite ?E; reflexivity.
Qed.
End TCPServerDiscovery_properties.

(** * Further properties *)

(** ** Frame conditions of the methods *)

Section Frame_properties.
Context {C R : Type} `{Connector C}.

Lemma preserves_ret (A B : Type) (f : State C R -> B) (a : A) :
  preserves f (ret a).
Proof. intros st. reflexivity. Qed.

Lemma preserves_raise (A B : Type) (f : State C R -> B) (e : exn) :
  preserves f (raise (A:=A) e).
Proof. intros st. reflexivity. Qed.

Lemma preserves_bind (A A' B : Type) (f : State C R -> B) (m : M C R A)
    (k : A -> M C R A') :
  preserves f m -> (forall a, preserves f (k a)) -> preserves f (bind m k).
Proof.
  intros Hm Hk st. unfold bind. specialize (Hm st).
  destruct (m st) as [[a|e] s]; simpl in *; [|exact Hm].
  rewrite Hk. exact Hm.
Qed.

Lemma preserves_get (A B : Type) (f : State C R -> B)
    (k : State C R -> M C R A) :
  (forall s, preserves f (k s)) -> preserves f (bind get_state k).
Proof. intros Hk st. unfold bind, get_state. apply Hk. Qed.

Lemma preserves_modify (B : Type) (f : State C R -> B)
    (g : State C R -> State C R) :
  (forall st, f (g st) = f st) -> preserves f (modify g).
Proof. intros Hg st. apply Hg. Qed.

Lemma call_disconnect_preserves (B : Type) (f : State C R -> B) (c : ref) :
  (forall v st, f (set_connector c v st) = f st) ->
  (forall e st, f (record e st) = f st) ->
  (forall es st, f (push_events es st) = f st) ->
  preserves f (call_disconnect c).
Proof.
  intros H1 H2 H3 st. unfold call_disconnect, finish, forward.
  destruct (raised _); simpl; rewrite H3, H1, H2; reflexivity.
Qed.

(** The stop of a worker touches the flags of its loop, the connector
    and the trace, and nothing else. *)
Lemma stop_preserves (B : Type) (f : State C R -> B) (l : ref) :
  (forall c v st, f (set_connector c v st) = f st) ->
  (forall e st, f (record e st) = f st) ->
  (forall es st, f (push_events es st) = f st) ->
  (forall r v st, f (set_loop r v st) = f st) ->
  preserves f (AsyncLoop.stop l).
Proof.
  intros H1 H2 H3 H4. unfold AsyncLoop.stop.
  apply preserves_bind.
  { apply preserves_modify. intros st. rewrite H4, H2. reflexivity. }
  intros _. apply preserves_get. intros s.
  apply preserves_bind.
  { destruct (connected _);
      [apply call_disconnect_preserves; auto | apply preserves_ret]. }
  intros _. apply preserves_modify. intros st. apply H4.
Qed.
End Frame_properties.

(** ** More on dictionaries *)

Section PyDict_more.
Variable V : Type.

Lemma del_set_absent (k : string) (v : V) (d : PyDict.dict V) :
  PyDict.get k d = None -> PyDict.del k (PyDict.set k v d) = d.
Proof.
  induction d as [|[k' v'] d IH]; simpl.
  - rewrite String.eqb_refl. reflexivity.
  - destruct (String.eqb k k') eqn:E; [discriminate|].
    intros G. simpl. rewrite E, (IH G). reflexivity.
Qed.
End PyDict_more.

(** ** More on ConnectionManager *)

Ltac eval_store :=
  lazy beta iota zeta delta
    [ConnectionManager.unavailable ConnectionManager.available
     ConnectionManager.install ConnectionManager.store_new
     ConnectionManager._new_maintained_connection
     ConnectionManager.loop_stop ConnectionManager.loop_start
     ConnectionManager.set_loop_attr ConnectionManager.Method
     AsyncLoop.stop AsyncLoop.start AsyncLoop.with_flags
     MaintainedConnection.init MaintainedConnectionLoop.init
     bind ret raise modify get_state fst snd
     forward push_events set_loop record set_connector
     set_maintained_connection set_next_ref set_connections add_listener
     connectors listeners maintained_connections loops next_ref
     _connections retry_period module_logger events trace
     mc_resource mc_connector mc_retry_strategy mc_logger mc_loop
     ml_maintained_connection ml_loop ml_stop_event ml_worker_active].

Section ConnectionManager_more.
Context {C : Type} `{Connector C}.

(** What [store_new] leaves alone, and the listener it adds. *)
Lemma store_new_frame (st : State C PeriodRetryStrategy) (resource : string)
    (connector : ref) :
  let r := ConnectionManager.store_new resource connector st in
  listeners (snd r) connector = listeners st connector ++ [next_ref st] /\
  (forall c, c <> connector -> listeners (snd r) c = listeners st c) /\
  (forall m, m <> next_ref st ->
             maintained_connections (snd r) m = maintained_connections st m) /\
  events (snd r) = events st /\
  retry_period (snd r) = retry_period st /\
  module_logger (snd r) = module_logger st.
Proof.
  intros r. subst r.
  repeat split; eval_store; rewrite ?upd_same; try reflexivity.
  - intros c N. rewrite upd_other by exact N. reflexivity.
  - intros m N. rewrite !upd_other by exact N. reflexivity.
Qed.

Lemma start_frame (R : Type) (st : State C R) (l : ref) :
  let r := AsyncLoop.start (R:=R) l st in
  listeners (snd r) = listeners st /\
  events (snd r) = events st /\
  ml_maintained_connection (loops (snd r) l)
  = ml_maintained_connection (loops st l) /\
  ml_loop (loops (snd r) l) = ml_loop (loops st l) /\
  ml_stop_event (loops (snd r) l) = ml_stop_event (loops st l).
Proof.
  intros r. subst r.
  repeat split; eval_store; rewrite ?upd_same; reflexivity.
Qed.

(** What [install] does: it builds the maintained connection and its
    loop, stores the record and starts the worker. *)
Lemma install_runs (st : State C PeriodRetryStrategy) (resource : string)
    (connector : ref) :
  let new_mc := next_ref st in
  let new_l := S (next_ref st) in
  exists st',
    ConnectionManager.install resource connector st = (Ok tt, st') /\
    _connections st' = PyDict.set resource new_mc (_connections st) /\
    maintained_connections st' new_mc =
      {| mc_resource := resource;
         mc_connector := connector;
         mc_retry_strategy :=
           {| period := retry_period st; last_attempt := None |};
         mc_logger := module_logger st;
         mc_loop := Some new_l |} /\
    (forall m, m <> new_mc ->
               maintained_connections st' m = maintained_connections st m) /\
    loops st' new_l =
      {| ml_maintained_connection := new_mc;
         ml_loop := None;
         ml_stop_event := false;
         ml_worker_active := true |} /\
    (forall l, l <> new_l -> loops st' l = loops st l) /\
    connectors st' = connectors st /\
    listeners st' connector = listeners st connector ++ [new_mc] /\
    (forall c, c <> connector -> listeners st' c = listeners st c) /\
    events st' = events st /\
    next_ref st' = S (S (next_ref st)) /\
    trace st' = trace st ++ [Call_start new_l].
Proof.
  intros new_mc new_l.
  destruct (store_new_runs st resource connector)
    as (F1 & F2 & F3 & F4 & F5 & F6 & F7 & F8).
  destruct (store_new_frame st resource connector)
    as (L1 & L2 & L3 & L4 & _).
  unfold ConnectionManager.install, bind.
  destruct (ConnectionManager.store_new resource connector st)
    as [r2 st2] eqn:Hstore.
  simpl in F1, F2, F3, F4, F5, F6, F7, F8, L1, L2, L3, L4. subst r2.
  fold new_mc new_l in F2, F3, F4, F5, L1, L3.
  cbv beta iota.
  unfold ConnectionManager.loop_start, bind, get_state. cbv beta iota.
  fold new_mc. rewrite F3. cbv beta iota delta [mc_loop].
  change (S new_mc) with new_l.
  destruct (start_runs st2 new_l) as (G1 & G2 & G3 & G4 & G5 & G6 & G7 & G8).
  destruct (start_frame st2 new_l) as (K1 & K2 & K3 & K4 & K5).
  destruct (AsyncLoop.start new_l st2) as [r3 st3] eqn:Hst.
  simpl in G1, G2, G3, G4, G5, G6, G7, G8, K1, K2, K3, K4, K5. subst r3.
  exists st3. split; [reflexivity|].
  rewrite G6, G4, G5, K1, K2, G7, G8, F8, F7, F6, F3.
  repeat split; auto.
  - destruct (loops st3 new_l) as [a b c d] eqn:E. simpl in *.
    change new_l with (S new_mc) in K3, K4, K5. rewrite F4 in K3, K4, K5.
    simpl in K3, K4, K5. subst. reflexivity.
  - intros l N. rewrite (G3 _ N). apply F5. exact N.
Qed.

(** X1: [available] for a key without a record builds a maintained
    connection on the connector with a fresh retry strategy of the
    manager's period, stores it under the key and starts its worker.
    The records of the other keys stay; the loop is built without a
    connected-callback; the connector itself is not touched: the only
    call made is the start of the worker. *)
Theorem available_registers_new_record
    (st : State C PeriodRetryStrategy) (resource : string)
    (connector : ref) :
  PyDict.get resource (_connections st) = None ->
  let new_mc := next_ref st in
  let new_l := S (next_ref st) in
  exists st',
    ConnectionManager.available resource connector st = (Ok tt, st') /\
    PyDict.get resource (_connections st') = Some new_mc /\
    (forall k, k <> resource ->
               PyDict.get k (_connections st')
               = PyDict.get k (_connections st)) /\
    maintained_connections st' new_mc =
      {| mc_resource := resource;
         mc_connector := connector;
         mc_retry_strategy :=
           {| period := retry_period st; last_attempt := None |};
         mc_logger := module_logger st;
         mc_loop := Some new_l |} /\
    ml_maintained_connection (loops st' new_l) = new_mc /\
    ml_loop (loops st' new_l) = None /\
    connectors st' = connectors st /\
    events st' = events st /\
    calls_since st st' = [Call_start new_l].
Proof.
  intros Hget new_mc new_l.
  destruct (install_runs st resource connector)
    as (st' & Hi & Hd & Hm & _ & Hl & _ & Hc & _ & _ & He & _ & Ht).
  exists st'. split.
  { unfold ConnectionManager.available, bind, get_state.
    rewrite Hget. exact Hi. }
  rewrite Hd. fold new_l in Hl. rewrite Hl. repeat split; auto.
  - apply get_set_same.
  - intros k N. apply get_set_other. exact N.
  - apply calls_since_app. exact Ht.
Qed.

(** After [install] the record of the key holds the connector, so
    [available] with the same connector finds it. *)
Lemma installed_is_found (s st1 : State C PeriodRetryStrategy)
    (resource : string) (connector : ref) (r : Res unit) :
  ConnectionManager.install resource connector s = (r, st1) ->
  ConnectionManager.available resource connector st1 = (Ok tt, st1).
Proof.
  intros Hi.
  destruct (install_runs s resource connector)
    as (st' & Hi' & Hd & Hm & _).
  rewrite Hi in Hi'. injection Hi' as _ <-.
  unfold ConnectionManager.available, bind, get_state.
  rewrite Hd, get_set_same, Hm. simpl. rewrite Nat.eqb_refl. reflexivity.
Qed.

(** X2: [available] is idempotent: once a call for a key and a connector
    has returned, whichever branch it took, a second call with the same
    key and connector changes nothing. *)
Theorem available_twice_is_available_once
    (st st1 : State C PeriodRetryStrategy) (resource : string)
    (connector : ref) :
  ConnectionManager.available resource connector st = (Ok tt, st1) ->
  ConnectionManager.available resource connector st1 = (Ok tt, st1).
Proof.
  intros Ha. pose proof Ha as Ha'.
  unfold ConnectionManager.available, bind at 1, get_state in Ha.
  destruct (PyDict.get resource (_connections st)) as [previous|] eqn:Hget.
  - destruct (Nat.eqb _ connector) eqn:E.
    + injection Ha as <-. exact Ha'.
    + unfold bind in Ha.
      destruct (ConnectionManager.loop_stop previous st) as [[[]|e] s];
        [|discriminate].
      eapply installed_is_found. exact Ha.
  - eapply installed_is_found. exact Ha.
Qed.

(** The branches of [available]. *)
Lemma available_branches (st : State C PeriodRetryStrategy)
    (resource : string) (connector : ref) :
  ConnectionManager.available resource connector st =
    match PyDict.get resource (_connections st) with
    | Some previous =>
        if Nat.eqb (mc_connector (maintained_connections st previous))
                   connector
        then (Ok tt, st)
        else
          match ConnectionManager.loop_stop previous st with
          | (Ok _, s) => ConnectionManager.install resource connector s
          | (Raise e, s) => (Raise e, s)
          end
    | None => ConnectionManager.install resource connector st
    end.
Proof.
  unfold ConnectionManager.available, bind at 1, get_state.
  destruct (PyDict.get resource (_connections st)) as [previous|];
    [|reflexivity].
  destruct (Nat.eqb _ connector); [reflexivity|].
  unfold bind.
  destruct (ConnectionManager.loop_stop previous st) as [[[]|e] s];
    reflexivity.
Qed.

(** The stop of a worker returns when the disconnect it issues does. *)
Lemma stop_returns (R : Type) (st : State C R) (l : ref) :
  raised (disconnect (connectors st (connector_of st l))) = None ->
  fst (AsyncLoop.stop l st) = Ok tt.
Proof.
  intros Hdr. unfold connector_of in Hdr.
  unfold AsyncLoop.stop, AsyncLoop.with_flags. step_methods. unfold_store.
  simpl. rewrite upd_same. simpl.
  destruct (connected _); simpl; [rewrite Hdr|]; reflexivity.
Qed.

(** [available] and then [unavailable] for a key without a record. *)
Lemma announce_withdraw_runs
    (st : State C PeriodRetryStrategy) (resource : string)
    (connector : ref) :
  PyDict.get resource (_connections st) = None ->
  raised (disconnect (connectors st connector)) = None ->
  exists st2,
    (ConnectionManager.available resource connector ;;;
     ConnectionManager.unavailable resource) st = (Ok tt, st2) /\
    _connections st2 = _connections st /\
    mc_loop (maintained_connections st2 (next_ref st)) = None /\
    listeners st2 connector = listeners st connector ++ [next_ref st].
Proof.
  intros Hget Hdr.
  destruct (install_runs st resource connector)
    as (st1 & Hi & Hd & Hm & _ & Hl & _ & Hc & Hls & _).
  assert (Eco : connector_of st1 (S (next_ref st)) = connector).
  { unfold connector_of. rewrite Hl. simpl. rewrite Hm. reflexivity. }
  assert (Hs : fst (AsyncLoop.stop (S (next_ref st)) st1) = Ok tt).
  { apply stop_returns. rewrite Eco, Hc. exact Hdr. }
  pose proof (@stop_preserves C PeriodRetryStrategy _ _
                (@_connections C PeriodRetryStrategy) (S (next_ref st))
                (fun _ _ _ => eq_refl) (fun _ _ => eq_refl)
                (fun _ _ => eq_refl) (fun _ _ _ => eq_refl) st1) as P1.
  pose proof (@stop_preserves C PeriodRetryStrategy _ _
                (@maintained_connections C PeriodRetryStrategy)
                (S (next_ref st))
                (fun _ _ _ => eq_refl) (fun _ _ => eq_refl)
                (fun _ _ => eq_refl) (fun _ _ _ => eq_refl) st1) as P2.
  pose proof (@stop_preserves C PeriodRetryStrategy _ _
                (@listeners C PeriodRetryStrategy) (S (next_ref st))
                (fun _ _ _ => eq_refl) (fun _ _ => eq_refl)
                (fun _ _ => eq_refl) (fun _ _ _ => eq_refl) st1) as P3.
  destruct (AsyncLoop.stop (S (next_ref st)) st1) as [r s2] eqn:Estop.
  simpl in Hs, P1, P2, P3. subst r.
  unfold bind at 1. rewrite available_branches, Hget, Hi.
  unfold ConnectionManager.unavailable, bind at 1, get_state.
  rewrite Hd, get_set_same.
  unfold bind at 1. unfold ConnectionManager.loop_stop, bind at 1, get_state.
  rewrite Hm. cbv beta iota delta [mc_loop]. rewrite Estop.
  unfold ConnectionManager.set_loop_attr, bind, modify.
  eexists. split; [reflexivity|].
  unfold set_connections, set_maintained_connection. simpl.
  rewrite upd_same, P1, P3, Hd, Hls, del_set_absent by exact Hget. auto.
Qed.

(** X3: announcing a resource and then withdrawing it is a round trip on
    the registry: [available] followed by [unavailable] for a key that
    had no record leaves the registry exactly as it was.  The maintained
    connection that was built loses its loop, but stays a listener of
    the connector. *)
Theorem available_then_unavailable_restores_registry
    (st : State C PeriodRetryStrategy) (resource : string)
    (connector : ref) :
  PyDict.get resource (_connections st) = None ->
  raised (disconnect (connectors st connector)) = None ->
  exists st2,
    (ConnectionManager.available resource connector ;;;
     ConnectionManager.unavailable resource) st = (Ok tt, st2) /\
    _connections st2 = _connections st /\
    mc_loop (maintained_connections st2 (next_ref st)) = None /\
    listeners st2 connector = listeners st connector ++ [next_ref st].
Proof.
  exact (announce_withdraw_runs st resource connector).
Qed.

(** X4: [unavailable] never unregisters the listener a maintained
    connection added to its connector: whatever the key and whatever the
    outcome, the listeners of every connector are afterwards what they
    were. *)
Theorem unavailable_keeps_listeners
    (st : State C PeriodRetryStrategy) (resource : string) :
  listeners (snd (ConnectionManager.unavailable resource st)) = listeners st.
Proof.
  revert st.
  change (preserves (@listeners C PeriodRetryStrategy)
            (ConnectionManager.unavailable resource)).
  unfold ConnectionManager.unavailable. apply preserves_get. intros s.
  destruct (PyDict.get resource (_connections s)); [|apply preserves_ret].
  apply preserves_bind.
  { unfold ConnectionManager.loop_stop. apply preserves_get. intros s'.
    destruct (mc_loop _); [|apply preserves_raise].
    apply stop_preserves; reflexivity. }
  intros _. apply preserves_bind; intros; apply preserves_modify; reflexivity.
Qed.

(** X5: [unavailable] is idempotent: once a call for a key has returned,
    a second call for the key changes nothing and raises nothing. *)
Theorem unavailable_twice_is_unavailable_once
    (st st1 : State C PeriodRetryStrategy) (resource : string) :
  ConnectionManager.unavailable resource st = (Ok tt, st1) ->
  ConnectionManager.unavailable resource st1 = (Ok tt, st1).
Proof.
  intros Hu.
  assert (Hgone : PyDict.get resource (_connections st1) = None).
  { unfold ConnectionManager.unavailable, bind at 1, get_state in Hu.
    destruct (PyDict.get resource (_connections st)) as [connection|] eqn:G.
    - unfold bind at 1 in Hu.
      destruct (ConnectionManager.loop_stop connection st) as [[[]|e] s];
        [|discriminate].
      unfold ConnectionManager.set_loop_attr, bind, modify in Hu.
      injection Hu as <-. simpl. apply get_del_same.
    - injection Hu as <-. exact G. }
  unfold ConnectionManager.unavailable, bind, get_state.
  rewrite Hgone. reflexivity.
Qed.

(** [maintain] of a record returns when [connect()] raises nothing but
    the connection error. *)
Lemma record_maintain_returns (st : State C PeriodRetryStrategy)
    (self : ref) (now : Z) :
  (forall x : C,
      match raised (connect x) with
      | Some e => is_ConnectorError e = true
      | None => True
      end) ->
  exists b s, MaintainedConnection.maintain self now st = (Ok b, s).
Proof.
  intros Law. unfold MaintainedConnection.maintain, bind at 1.
  destruct (MaintainedConnection.call_retry_strategy self now st)
    as [[delay|e] s1] eqn:Ecall.
  - destruct (delay <=? 0)%Z; unfold bind, ret; [|eauto].
    destruct (open_runs s1 self) as [Hr _].
    destruct (MaintainedConnection._open self s1) as [[b|e] s2];
      simpl in Hr; [eauto|].
    exfalso. revert Hr.
    specialize (Law (connectors s1
                       (mc_connector (maintained_connections s1 self)))).
    destruct (_ && _); [|discriminate].
    destruct (raised _) as [e'|]; [|discriminate].
    rewrite Law. discriminate.
  - exfalso. revert Ecall. unfold MaintainedConnection.call_retry_strategy.
    destruct (evaluate _ now). discriminate.
Qed.

(** X7: when the connectors fail to connect with the connection error
    only, [ConnectionManager.maintain] returns: it raises nothing,
    however many records there are and whatever their state. *)
Theorem maintain_returns_when_connect_raises_ConnectorError_only
    (st : State C PeriodRetryStrategy) (current_time : nat -> Z) :
  (forall x : C,
      match raised (connect x) with
      | Some e => is_ConnectorError e = true
      | None => True
      end) ->
  fst (ConnectionManager.maintain current_time st) = Ok tt.
Proof.
  intros Law.
  unfold ConnectionManager.maintain, ConnectionManager.connections,
    bind at 1, bind at 1, get_state, ret.
  generalize (PyDict.values (PyDict.copy (_connections st))) as snapshot.
  generalize 0 as calls. revert st.
  intros st calls snapshot. revert st calls.
  induction snapshot as [|mc rest IH]; intros st calls; simpl;
    [reflexivity|].
  unfold bind at 1.
  destruct (record_maintain_returns st mc (current_time calls) Law)
    as (b & s & E).
  unfold ConnectionManager.maintain_one, try_except, bind at 1.
  rewrite E. unfold ret. apply IH.
Qed.

(** X8: the loop the manager builds has no connected-callback: a pass of
    its connected loop makes no call and changes nothing, so that its
    connected loop ends at once on a connector that is not connected
    and never ends by itself on one that is. *)
Theorem manager_loop_has_no_callback
    (st : State C PeriodRetryStrategy) (resource : string)
    (connector : ref) (fuel : nat) :
  PyDict.get resource (_connections st) = None ->
  let st' := snd (ConnectionManager.available resource connector st) in
  let l := S (next_ref st) in
  ml_loop (loops st' l) = None /\
  MaintainedConnectionLoop.connected_body l st' = (Ok tt, st') /\
  MaintainedConnectionLoop.while_connected fuel l st' =
    (if connected (connectors st connector)
     then None
     else Some (Ok tt, st')).
Proof.
  intros Hget st' l.
  destruct (install_runs st resource connector)
    as (s & Hi & _ & Hm & _ & Hl & _ & Hc & _).
  assert (Es : st' = s).
  { subst st'. rewrite available_branches, Hget, Hi. reflexivity. }
  rewrite Es. clear Es st'. fold l in Hl, Hm.
  assert (Hbody : MaintainedConnectionLoop.connected_body l s = (Ok tt, s)).
  { unfold MaintainedConnectionLoop.connected_body,
      MaintainedConnectionLoop._connected_loop, bind, get_state.
    rewrite Hl. reflexivity. }
  split; [rewrite Hl; reflexivity|]. split; [exact Hbody|].
  assert (Econ : connected
                   (connectors s
                      (mc_connector
                         (maintained_connections s
                            (ml_maintained_connection (loops s l)))))
                 = connected (connectors st connector)).
  { rewrite Hl. simpl. rewrite Hm, Hc. reflexivity. }
  induction fuel as [|fuel IH]; simpl; rewrite Econ;
    destruct (connected (connectors st connector)) eqn:E; try reflexivity.
  rewrite Hbody. rewrite IH. reflexivity.
Qed.
End ConnectionManager_more.

(** ** More on MaintainedConnection and its loop *)

Section MaintainedConnection_more.
Context {C R : Type} `{Connector C} `{RetryStrategy R}.

(** X9: [_open] is idempotent on a connector that connects: after an
    [_open] whose [connect()] returned and left the connector connected,
    a second [_open] makes no call, changes nothing and returns
    [False]. *)
Theorem open_after_open_makes_no_call (st : State C R) (self : ref) :
  let c := mc_connector (maintained_connections st self) in
  let x0 := connectors st c in
  connected x0 = false ->
  available x0 = true ->
  raised (connect x0) = None ->
  connected (after (connect x0)) = true ->
  exists st1,
    MaintainedConnection._open self st = (Ok true, st1) /\
    MaintainedConnection._open self st1 = (Ok false, st1).
Proof.
  intros c x0 Hx0 Hav Hcr Hx1.
  rewrite (open_connects st self Hx0 Hav Hcr). fold c. fold x0.
  eexists. split; [reflexivity|].
  unfold MaintainedConnection._open, bind at 1, get_state.
  unfold forward, push_events, record, set_connector. cbn -[upd].
  fold c. rewrite upd_same, Hx1. reflexivity.
Qed.

(** X10: the events a connector fires during [connect()] reach the event
    source unchanged and in order, one copy for each maintained
    connection that listens to the connector, also when [connect()]
    raises afterwards; an [_open] that does not try the connector
    pushes no event. *)
Theorem open_forwards_events_to_every_listener
    (st : State C R) (self : ref) :
  let c := mc_connector (maintained_connections st self) in
  let x0 := connectors st c in
  events_since st (snd (MaintainedConnection._open self st)) =
    if negb (connected x0) && available x0
    then flat_map (fun k => map (fun _ => event_of k c) (listeners st c))
                  (fired (connect x0))
    else [].
Proof.
  intros c x0. apply events_since_app.
  unfold MaintainedConnection._open. step_methods. fold c. fold x0.
  destruct (negb (connected x0) && available x0); simpl;
    [|rewrite app_nil_r; reflexivity].
  fold x0. unfold forward, push_events.
  destruct (raised (connect x0)) as [e|]; simpl; [|reflexivity].
  destruct (is_ConnectorError e); simpl; [|reflexivity].
  destruct (isEnabledFor_DEBUG _); reflexivity.
Qed.

(** The calls of a pass of the connected loop that returns. *)
Lemma connected_body_returns_trace (s s' : State C R) (l : ref) :
  MaintainedConnectionLoop.connected_body l s = (Ok tt, s') ->
  trace s' = trace s ++ [Call_connected_loop l] \/ trace s' = trace s.
Proof.
  unfold MaintainedConnectionLoop.connected_body,
    MaintainedConnectionLoop._connected_loop, bind, get_state.
  destruct (ml_loop (loops s l)) as [cb|].
  - unfold call_callback, finish.
    destruct (raised _).
    + destruct (MaintainedConnection._close _ _) as [[b|e'] s2];
        discriminate.
    + intros E. injection E as <-. left. reflexivity.
  - unfold ret. intros E. injection E as <-. right. reflexivity.
Qed.

Lemma while_connected_returns_trace (l : ref) (fuel : nat) :
  forall s s' : State C R,
    MaintainedConnectionLoop.while_connected fuel l s = Some (Ok tt, s') ->
    exists k, trace s' = trace s ++ repeat (Call_connected_loop l) k.
Proof.
  induction fuel as [|fuel IH]; intros s s';
    simpl MaintainedConnectionLoop.while_connected;
    destruct (connected _); try discriminate;
    try (intros E; injection E as <-; exists 0; simpl;
         rewrite app_nil_r; reflexivity).
  destruct (MaintainedConnectionLoop.connected_body l s) as [[[]|e] s1] eqn:B;
    [|discriminate].
  intros W. destruct (IH _ _ W) as [k Hk].
  destruct (connected_body_returns_trace _ _ B) as [E|E]; rewrite Hk, E.
  - exists (S k). rewrite <- app_assoc. reflexivity.
  - exists k. reflexivity.
Qed.

Lemma final_wait_trace (l : ref) (now : Z) (s : State C R) :
  exists delay,
    trace (snd (MaintainedConnectionLoop.final_wait l now s))
    = trace s ++ [Call_wait l delay].
Proof.
  unfold MaintainedConnectionLoop.final_wait,
    MaintainedConnection.call_retry_strategy, stop_event_wait,
    bind, get_state, ret.
  destruct (evaluate _ now) as [delay rs]. simpl.
  exists delay. reflexivity.
Qed.

(** X11: a [loop] that returns has made the calls of [_open], then some
    number of calls of the connected-callback, then one wait, and no
    other call: it never disconnects the connector on its own. *)
Theorem loop_returns_without_disconnecting
    (fuel : nat) (l : ref) (now : Z) (st : State C R) :
  match MaintainedConnectionLoop.loop fuel l now st with
  | Some (Ok _, st') =>
      exists k delay,
        calls_since st st' =
          calls_since st
            (snd (MaintainedConnection._open
                    (ml_maintained_connection (loops st l)) st))
          ++ repeat (Call_connected_loop l) k ++ [Call_wait l delay]
  | _ => True
  end.
Proof.
  unfold MaintainedConnectionLoop.loop.
  pose proof (open_extends_trace st (ml_maintained_connection (loops st l)))
    as Ho.
  destruct (MaintainedConnection._open _ st) as [[b|e] s1]; simpl in Ho.
  - destruct (MaintainedConnectionLoop.while_connected fuel l s1)
      as [[[[]|e] s2]|] eqn:W; try exact I.
    + destruct (while_connected_returns_trace _ _ _ W) as [k Hk].
      destruct (final_wait_trace l now s2) as [delay Hd].
      destruct (MaintainedConnectionLoop.final_wait l now s2)
        as [[a|e] s3]; [|exact I].
      simpl in Hd. exists k, delay. apply calls_since_app.
      rewrite Hd, Hk, Ho, <- !app_assoc. reflexivity.
    + destruct (MaintainedConnectionLoop.final_wait l now s2)
        as [[a|e'] s3]; exact I.
  - destruct (MaintainedConnectionLoop.final_wait l now s1)
      as [[a|e'] s3]; exact I.
Qed.

(** X12: when [connect()] fails and leaves the connector disconnected,
    [loop] never calls the connected-callback and still carries out its
    retry wait: after a connection error it returns, the error being
    logged at debug level; after any other error it raises that error
    once the wait is over. *)
Theorem loop_waits_after_failed_connect
    (fuel : nat) (l : ref) (now : Z) (st : State C R) (e : exn) :
  let mc := maintained_connections st (ml_maintained_connection (loops st l)) in
  let c := mc_connector mc in
  let x0 := connectors st c in
  connected x0 = false ->
  available x0 = true ->
  raised (connect x0) = Some e ->
  connected (after (connect x0)) = false ->
  exists st',
    MaintainedConnectionLoop.loop fuel l now st
    = Some ((if is_ConnectorError e then Ok tt else Raise e), st') /\
    calls_since st st' =
      Call_connect c ::
      (if is_ConnectorError e && isEnabledFor_DEBUG (mc_logger mc)
       then [Call_log (exception_logged e);
             Call_log (debug_unable_to_connect (mc_resource mc) e)]
       else [])
      ++ [Call_wait l (fst (evaluate (mc_retry_strategy mc) now))].
Proof.
  intros mc c x0 Hx0 Hav Hcr Hx1.
  unfold MaintainedConnectionLoop.loop.
  unfold MaintainedConnection._open. step_methods.
  fold mc. fold c. fold x0. rewrite Hx0, Hav. simpl. fold x0. rewrite Hcr.
  unfold forward, push_events, record, set_connector.
  destruct (is_ConnectorError e) eqn:Ec; simpl.
  - destruct (isEnabledFor_DEBUG (mc_logger mc)) eqn:Ed; simpl;
      (destruct fuel; simpl; fold mc; fold c; rewrite upd_same, Hx1;
       unfold MaintainedConnectionLoop.final_wait,
         MaintainedConnection.call_retry_strategy, stop_event_wait,
         bind, get_state, ret; simpl; fold mc;
       destruct (evaluate (mc_retry_strategy mc) now) as [delay rs];
       simpl; eexists; (split; [reflexivity|]);
       apply calls_since_app; simpl; rewrite <- ?app_assoc; reflexivity).
  - unfold MaintainedConnectionLoop.final_wait,
      MaintainedConnection.call_retry_strategy, stop_event_wait,
      bind, get_state, ret; simpl; fold mc.
    destruct (evaluate (mc_retry_strategy mc) now) as [delay rs].
    simpl. eexists. split; [reflexivity|].
    apply calls_since_app. simpl. rewrite <- ?app_assoc. reflexivity.
Qed.

(** X13: on a connector that is not connected and not available, [loop]
    makes no call but its retry wait, whatever the fuel, and returns:
    it neither connects nor calls the connected-callback. *)
Theorem loop_only_waits_when_unavailable
    (fuel : nat) (l : ref) (now : Z) (st : State C R) :
  let mc := maintained_connections st (ml_maintained_connection (loops st l)) in
  let x0 := connectors st (mc_connector mc) in
  connected x0 = false ->
  available x0 = false ->
  exists st',
    MaintainedConnectionLoop.loop fuel l now st = Some (Ok tt, st') /\
    calls_since st st'
    = [Call_wait l (fst (evaluate (mc_retry_strategy mc) now))] /\
    connectors st' = connectors st.
Proof.
  intros mc x0 Hx0 Hav.
  unfold MaintainedConnectionLoop.loop.
  unfold MaintainedConnection._open. step_methods.
  fold mc. fold x0. rewrite Hx0, Hav. simpl.
  destruct fuel; simpl; fold mc; fold x0; rewrite Hx0;
    unfold MaintainedConnectionLoop.final_wait,
      MaintainedConnection.call_retry_strategy, stop_event_wait,
      bind, get_state, ret; simpl; fold mc;
    destruct (evaluate (mc_retry_strategy mc) now) as [delay rs];
    simpl; eexists; (split; [reflexivity|]);
    (split; [apply calls_since_app; reflexivity | reflexivity]).
Qed.
End MaintainedConnection_more.

(** ** ConnectionDiscovery *)

Section ConnectionDiscovery_properties.
Context {C D : Type} `{Connector C}.

(** X14: through a discovery with a manager, the announcement of a
    resource whose factory answers a connector, followed by the
    withdrawal of its key, is a round trip on the registry: the record
    the first event creates is removed by the second, while the
    maintained connection stays a listener of the connector. *)
Theorem discovery_available_then_unavailable
    (self : ConnectionDiscovery.ConnectionDiscovery_state (C:=C) (D:=D))
    (st : State C PeriodRetryStrategy) (key : string) (resource : D)
    (c : ref) :
  ConnectionDiscovery.manager self = true ->
  ConnectionDiscovery.connector_factory self resource st = (Ok (Some c), st) ->
  PyDict.get key (_connections st) = None ->
  raised (disconnect (connectors st c)) = None ->
  exists st2,
    (ConnectionDiscovery.resource_event self
       (ConnectionDiscovery.ResourceAvailableEvent key resource) ;;;
     ConnectionDiscovery.resource_event self
       (ConnectionDiscovery.ResourceUnavailableEvent key)) st
    = (Ok tt, st2) /\
    _connections st2 = _connections st /\
    mc_loop (maintained_connections st2 (next_ref st)) = None /\
    listeners st2 c = listeners st c ++ [next_ref st].
Proof.
  intros Hm Hf Hget Hdr.
  destruct (announce_withdraw_runs st key c Hget Hdr) as (st2 & Hrun & F).
  exists st2. split; [|exact F].
  assert (E1 : ConnectionDiscovery.resource_event self
                 (ConnectionDiscovery.ResourceAvailableEvent key resource) st
               = ConnectionManager.available key c st).
  { unfold ConnectionDiscovery.resource_event,
      ConnectionDiscovery._create_connector.
    rewrite Hm. simpl. unfold bind at 1. rewrite Hf. reflexivity. }
  assert (E2 : forall s,
             ConnectionDiscovery.resource_event self
               (ConnectionDiscovery.ResourceUnavailableEvent key) s
             = ConnectionManager.unavailable key s).
  { intros s. unfold ConnectionDiscovery.resource_event.
    rewrite Hm. reflexivity. }
  unfold bind at 1. unfold bind at 1 in Hrun. rewrite E1.
  destruct (ConnectionManager.available key c st) as [[[]|e] s1];
    [|discriminate].
  rewrite E2. exact Hrun.
Qed.
End ConnectionDiscovery_properties.

(** ** More on TCPServerDiscovery *)

Section TCPServerDiscovery_more.
Import TCPServerDiscovery.

Lemma length_of_append (a s : string) :
  String.length (a ++ s) = String.length a + String.length s.
Proof.
  induction a as [|x a IH]; simpl; [reflexivity | rewrite IH; reflexivity].
Qed.

Lemma append_cancel_r (a b s : string) :
  (a ++ s)%string = (b ++ s)%string -> a = b.
Proof.
  revert b. induction a as [|x a IH]; intros b E.
  - destruct b as [|y b]; [reflexivity|]. exfalso.
    apply (f_equal String.length) in E. simpl in E.
    rewrite length_of_append in E. lia.
  - destruct b as [|y b].
    + exfalso. apply (f_equal String.length) in E. simpl in E.
      rewrite length_of_append in E. lia.
    + simpl in E. injection E as -> E. rewrite (IH _ E). reflexivity.
Qed.

(** X15: [qualify_service_type] keeps service subtypes apart: two
    subtypes qualify to the same service type only if they are the same
    subtype. *)
Theorem qualify_service_type_injective (a b : string) :
  String.eqb (qualify_service_type a) (qualify_service_type b)
  = String.eqb a b.
Proof.
  destruct (String.eqb a b) eqn:E.
  - apply String.eqb_eq in E. subst b. apply String.eqb_refl.
  - apply String.eqb_neq. apply String.eqb_neq in E. intros Q. apply E.
    unfold qualify_service_type in Q. simpl in Q. injection Q as Q.
    exact (append_cancel_r _ _ _ Q).
Qed.

Lemma notify_queue (n : Notification) (self : Discovery) :
  event_queue (notify self n) = event_queue self ++ event_of_notification n /\
  fired_batches (notify self n) = fired_batches self.
Proof.
  destruct n as [zc type name|zc type name]; simpl;
    unfold add_service, remove_service, _publish, resource_for_service;
    destruct (zc type name); simpl; rewrite ?app_nil_r; auto.
Qed.

Lemma update_twice (d : Discovery) : update (update d) = update d.
Proof.
  unfold update.
  destruct (event_queue d) eqn:E; simpl; [rewrite E|]; reflexivity.
Qed.

(** X16: the events of any sequence of notifications wait in the queue
    in the order of the notifications, those without service info being
    left out, and nothing is fired before [update]; [update] then hands
    all of them over in one batch, in that order, and empties the
    queue, so that a second [update] fires nothing. *)
Theorem update_fires_notified_events_in_order
    (ns : list Notification) (self : Discovery) :
  let self' := fold_left notify ns self in
  let queued := event_queue self ++ flat_map event_of_notification ns in
  event_queue self' = queued /\
  fired_batches self' = fired_batches self /\
  fired_batches (update self') =
    fired_batches self ++ match queued with [] => [] | _ :: _ => [queued] end
  /\
  event_queue (update self') = [] /\
  update (update self') = update self'.
Proof.
  intros self' queued.
  assert (Hq : event_queue self' = queued /\
               fired_batches self' = fired_batches self).
  { subst self' queued. revert self.
    induction ns as [|n ns IH]; intros self; simpl.
    - rewrite app_nil_r. auto.
    - destruct (IH (notify self n)) as [IH1 IH2].
      destruct (notify_queue n self) as [N1 N2].
      rewrite IH1, IH2, N1, N2, <- app_assoc. auto. }
  destruct Hq as [Hq Hf]. split; [exact Hq|]. split; [exact Hf|].
  split; [|split].
  - rewrite update_fires_queue, Hq, Hf. reflexivity.
  - unfold update. destruct (event_queue self') eqn:E; [exact E|reflexivity].
  - apply update_twice.
Qed.
End TCPServerDiscovery_more.

(** ** The further properties on the examples *)

Section More_examples.
Import Fixture.

(** X1 on a manager that knows "A" and "B" and is told of "C". *)
Lemma available_registers_new_record_witness :
  let st := two_resources (reachable []) (reachable []) in
  exists st',
    ConnectionManager.available "C" 1 st = (Ok tt, st') /\
    PyDict.get "C" (_connections st') = Some (next_ref st) /\
    (forall k, k <> "C"%string ->
               PyDict.get k (_connections st')
               = PyDict.get k (_connections st)) /\
    maintained_connections st' (next_ref st) =
      {| mc_resource := "C";
         mc_connector := 1;
         mc_retry_strategy :=
           {| period := retry_period st; last_attempt := None |};
         mc_logger := module_logger st;
         mc_loop := Some (S (next_ref st)) |} /\
    ml_maintained_connection (loops st' (S (next_ref st))) = next_ref st /\
    ml_loop (loops st' (S (next_ref st))) = None /\
    connectors st' = connectors st /\
    events st' = events st /\
    calls_since st st' = [Call_start (S (next_ref st))].
Proof.
  intros st.
  exact (@available_registers_new_record TestConnector _ st "C" 1 eq_refl).
Defined.

(** X2 on a manager that is told twice of connector 1 for "A". *)
Lemma available_twice_is_available_once_witness :
  let st := two_resources (reachable []) (reachable []) in
  let st1 := snd (ConnectionManager.available "A" 1 st) in
  ConnectionManager.available "A" 1 st1 = (Ok tt, st1).
Proof.
  intros st st1.
  assert (E : ConnectionManager.available "A" 1 st = (Ok tt, st1)).
  { subst st1.
    assert (F : fst (ConnectionManager.available "A" 1 st) = Ok tt)
      by (vm_compute; reflexivity).
    destruct (ConnectionManager.available "A" 1 st) as [r s].
    simpl in F. subst r. reflexivity. }
  exact (@available_twice_is_available_once TestConnector _ st st1 "A" 1 E).
Defined.

(** X3 on a manager that is told of "C" and then loses it. *)
Lemma available_then_unavailable_restores_registry_witness :
  let st := two_resources (reachable []) (reachable []) in
  exists st2,
    (ConnectionManager.available "C" 1 ;;;
     ConnectionManager.unavailable "C") st = (Ok tt, st2) /\
    _connections st2 = _connections st /\
    mc_loop (maintained_connections st2 (next_ref st)) = None /\
    listeners st2 1 = listeners st 1 ++ [next_ref st].
Proof.
  intros st.
  exact (@available_then_unavailable_restores_registry TestConnector _ st
           "C" 1 eq_refl eq_refl).
Defined.

(** X5 on a manager that loses "A" twice. *)
Lemma unavailable_twice_is_unavailable_once_witness :
  let st := two_resources (reachable []) (reachable []) in
  let st1 := snd (ConnectionManager.unavailable "A" st) in
  ConnectionManager.unavailable "A" st1 = (Ok tt, st1).
Proof.
  intros st st1.
  assert (E : ConnectionManager.unavailable "A" st = (Ok tt, st1)).
  { subst st1.
    assert (F : fst (ConnectionManager.unavailable "A" st) = Ok tt)
      by (vm_compute; reflexivity).
    destruct (ConnectionManager.unavailable "A" st) as [r s].
    simpl in F. subst r. reflexivity. }
  exact (@unavailable_twice_is_unavailable_once TestConnector _ st st1 "A" E).
Defined.

(** X7 on a manager of connectors that never fail. *)
Lemma maintain_returns_when_connect_raises_ConnectorError_only_witness :
  fst (ConnectionManager.maintain (H:=SteadyConnector) (fun _ => 100%Z)
         steady_store) = Ok tt.
Proof.
  exact (@maintain_returns_when_connect_raises_ConnectorError_only bool
           SteadyConnector steady_store (fun _ => 100%Z) (fun _ => I)).
Defined.

(** X8 on the loop the manager builds for "C". *)
Lemma manager_loop_has_no_callback_witness :
  let st := two_resources (reachable []) (reachable []) in
  let st' := snd (ConnectionManager.available "C" 1 st) in
  let l := S (next_ref st) in
  ml_loop (loops st' l) = None /\
  MaintainedConnectionLoop.connected_body l st' = (Ok tt, st') /\
  MaintainedConnectionLoop.while_connected 3 l st' =
    (if connected (connectors st 1) then None else Some (Ok tt, st')).
Proof.
  intros st.
  exact (@manager_loop_has_no_callback TestConnector _ st "C" 1 3 eq_refl).
Defined.

(** X9 on a connector that can be connected. *)
Lemma open_after_open_makes_no_call_witness :
  let st := one_connection (reachable []) in
  exists st1,
    MaintainedConnection._open 0 st = (Ok true, st1) /\
    MaintainedConnection._open 0 st1 = (Ok false, st1).
Proof.
  intros st.
  exact (@open_after_open_makes_no_call TestConnector PeriodRetryStrategy _
           st 0 eq_refl eq_refl eq_refl eq_refl).
Defined.

(** X12 on a connector whose [connect()] raises the connection error. *)
Lemma loop_waits_after_failed_connect_witness :
  let st := one_loop (failing (ConnectorError 2)) in
  exists st',
    MaintainedConnectionLoop.loop 3 1 100%Z st = Some (Ok tt, st') /\
    calls_since st st' =
      [Call_connect 0;
       Call_log (exception_logged (ConnectorError 2));
       Call_log (debug_unable_to_connect "dev1" (ConnectorError 2));
       Call_wait 1 0].
Proof.
  intros st.
  exact (@loop_waits_after_failed_connect TestConnector PeriodRetryStrategy
           _ _ 3 1 100%Z st (ConnectorError 2) eq_refl eq_refl eq_refl
           eq_refl).
Defined.

(** X13 on a connector that is not available. *)
Lemma loop_only_waits_when_unavailable_witness :
  let st := one_loop absent in
  exists st',
    MaintainedConnectionLoop.loop 3 1 100%Z st = Some (Ok tt, st') /\
    calls_since st st' = [Call_wait 1 0] /\
    connectors st' = connectors st.
Proof.
  intros st.
  exact (@loop_only_waits_when_unavailable TestConnector PeriodRetryStrategy
           _ _ 3 1 100%Z st eq_refl eq_refl).
Defined.

(** X14 on a discovery that announces and withdraws "C". *)
Lemma discovery_available_then_unavailable_witness :
  let st := two_resources (reachable []) (reachable []) in
  exists st2,
    (ConnectionDiscovery.resource_event test_discovery
       (ConnectionDiscovery.ResourceAvailableEvent "C" "tty0"%string) ;;;
     ConnectionDiscovery.resource_event test_discovery
       (ConnectionDiscovery.ResourceUnavailableEvent "C")) st
    = (Ok tt, st2) /\
    _connections st2 = _connections st /\
    mc_loop (maintained_connections st2 (next_ref st)) = None /\
    listeners st2 1 = listeners st 1 ++ [next_ref st].
Proof.
  intros st.
  exact (@discovery_available_then_unavailable TestConnector string _
           test_discovery st "C" "tty0"%string 1 eq_refl eq_refl eq_refl
           eq_refl).
Defined.
End More_examples.
